(** * The nameko-devex HTTP gateway: order orchestration and response shaping

    A shallow embedding of [gateway/service.py] and [gateway/schemas.py].

    - [Python]   : the builtins the gateway relies on ([str.strip], [int],
                   [decimal.Decimal] and [format(d, 'f')]), exceptions.
    - [schemas]  : the marshmallow (version 2) schemas of [schemas.py], as
                   load and dump functions between JSON documents and typed
                   records.
    - [rpc]      : the two [RpcProxy] dependencies, as interfaces over the
                   state of a remote service, and the log of remote calls.
    - [service]  : the handlers of [GatewayService] for orders and for the
                   update of a product, in a state and error monad over the
                   two services and the call log.
    - [memory]   : in-memory products and orders services.

    The documents the services exchange with the gateway are records with the
    fields of the schemas; the body of a request is an arbitrary JSON
    document.

    Outside the model:
    - numbers of a JSON document that Python reads as [float]: a JSON number
      is an integer here;
    - text outside ASCII in a number: [int] and [Decimal] also read the
      other decimal digits and spaces of Unicode, [int_of_str] and
      [Decimal_of_str] read the ASCII ones ([is_ascii] marks the strings on
      which they agree);
    - the limits of Python on the size of a number: the digits of an integer
      conversion and the exponent of a [Decimal];
    - a body, or an element of [order_details], that is [null]: marshmallow
      loads it as [None] without an error, the load functions here refuse
      it. Where a theorem reads the body of a request, the body is a JSON
      object. *)

From stdpp Require Import gmap strings list.
From Stdlib Require Import ZArith String Ascii Lia DecimalString.
From Stdlib Require DecimalPos.

Set Warnings "-register-all".
Local Open Scope string_scope.
Local Open Scope Z_scope.

(* ===================================================================== *)
(** ** Python builtins *)
(* ===================================================================== *)

Module Python.

(** Exceptions the gateway raises or lets through. [RemoteError] stands for
    any other failure of a remote call. *)
Inductive exn :=
| ProductNotFound (msg : string)
| OrderNotFound (msg : string)
| ProductExists (msg : string)
| ValidationError
| BadRequest (msg : string)
| ValueError
| RemoteError (msg : string).

Definition outcome (A : Type) : Type := result A exn.

Definition is_digit (c : ascii) : bool :=
  (48 <=? Z.of_nat (nat_of_ascii c)) && (Z.of_nat (nat_of_ascii c) <=? 57).

Definition digit_value (c : ascii) : Z := Z.of_nat (nat_of_ascii c) - 48.

(** ASCII white space of [str.strip()]: TAB..CR, FS..US and the space. *)
Definition is_space (c : ascii) : bool :=
  let n := Z.of_nat (nat_of_ascii c) in
  ((9 <=? n) && (n <=? 13)) || ((28 <=? n) && (n <=? 32)).

Fixpoint lstrip (s : string) : string :=
  match s with
  | String c s' => if is_space c then lstrip s' else s
  | EmptyString => EmptyString
  end.

Fixpoint rstrip (s : string) : string :=
  match s with
  | String c s' =>
      match rstrip s' with
      | EmptyString => if is_space c then EmptyString else String c EmptyString
      | r => String c r
      end
  | EmptyString => EmptyString
  end.

Definition strip (s : string) : string := rstrip (lstrip s).

Fixpoint remove_underscores (s : string) : string :=
  match s with
  | String c s' =>
      if Ascii.eqb c "_" then remove_underscores s'
      else String c (remove_underscores s')
  | EmptyString => EmptyString
  end.

(** Splits off an optional sign: [(negative, rest)]. *)
Definition take_sign (s : string) : bool * string :=
  match s with
  | String "-" s' => (true, s')
  | String "+" s' => (false, s')
  | _ => (false, s)
  end.

(** The longest prefix of decimal digits, and what follows it. *)
Fixpoint span_digits (s : string) : string * string :=
  match s with
  | String c s' =>
      if is_digit c
      then let (d, r) := span_digits s' in (String c d, r)
      else (EmptyString, s)
  | EmptyString => (EmptyString, EmptyString)
  end.

Fixpoint digits_to_Z (acc : Z) (s : string) : Z :=
  match s with
  | String c s' => digits_to_Z (10 * acc + digit_value c) s'
  | EmptyString => acc
  end.

(** Digit groups of an integer literal: single underscores are allowed
    between digits only. [prev] tells whether the previous character was a
    digit. *)
Fixpoint int_digits (prev : bool) (acc : Z) (s : string) : option Z :=
  match s with
  | String c s' =>
      if is_digit c then int_digits true (10 * acc + digit_value c) s'
      else if Ascii.eqb c "_" && prev then int_digits false acc s'
      else None
  | EmptyString => if prev then Some acc else None
  end.

(** White space of the integer parser ([Py_ISSPACE]): TAB..CR and the
    space. FS..US, which [str.strip()] removes, are not skipped. *)
Definition is_c_space (c : ascii) : bool :=
  let n := Z.of_nat (nat_of_ascii c) in
  ((9 <=? n) && (n <=? 13)) || (n =? 32).

Fixpoint skip_spaces (s : string) : string :=
  match s with
  | String c s' => if is_c_space c then skip_spaces s' else s
  | EmptyString => EmptyString
  end.

Fixpoint drop_spaces (s : string) : string :=
  match s with
  | String c s' =>
      match drop_spaces s' with
      | EmptyString => if is_c_space c then EmptyString else String c EmptyString
      | r => String c r
      end
  | EmptyString => EmptyString
  end.

(** [int(s)] for a [str] of ASCII characters, base 10: white space, an
    optional sign, digit groups, white space; [None] is [ValueError]. On a
    [str] with a character outside ASCII, [int] first maps the decimal
    digits and the white space of Unicode to ASCII: that table is not part
    of the model, see [is_ascii]. *)
Definition int_of_str (s : string) : option Z :=
  let (neg, body) := take_sign (drop_spaces (skip_spaces s)) in
  match int_digits false 0 body with
  | Some n => Some (if neg then - n else n)
  | None => None
  end.

(** The characters of a [str] are all ASCII ([str.isascii()]). *)
Fixpoint is_ascii (s : string) : bool :=
  match s with
  | String c s' => (Z.of_nat (nat_of_ascii c) <? 128) && is_ascii s'
  | EmptyString => true
  end.

(** A finite [decimal.Decimal]: [(-1)^sign * int * 10^exp], the coefficient
    kept as the digit string [_int] without leading zeros. *)
Record Decimal := { _sign : bool; _int : string; _exp : Z }.

(** What [Decimal(s)] builds: a finite number, an infinity or a NaN. *)
Inductive numeric :=
| Finite (d : Decimal)
| Infinity (sign : bool)
| NaN.

Fixpoint strip_zeros (s : string) : string :=
  match s with
  | String "0" s' => strip_zeros s'
  | _ => s
  end.

(** [str(int(digits))] on a string of digits. *)
Definition normalize_digits (s : string) : string :=
  match strip_zeros s with
  | EmptyString => "0"
  | r => r
  end.

Definition lower (c : ascii) : ascii :=
  let n := nat_of_ascii c in
  if ((65 <=? n) && (n <=? 90))%nat then ascii_of_nat (n + 32) else c.

Fixpoint lowercase (s : string) : string :=
  match s with
  | String c s' => String (lower c) (lowercase s')
  | EmptyString => EmptyString
  end.

Definition all_digits (s : string) : bool :=
  match span_digits s with
  | (_, EmptyString) => true
  | _ => false
  end.

(** The exponent part [E[+-]digits] of a numeric string, or nothing. *)
Definition parse_exponent (s : string) : option Z :=
  match s with
  | EmptyString => Some 0
  | String c s' =>
      if Ascii.eqb (lower c) "e" then
        let (neg, ds) := take_sign s' in
        match ds with
        | EmptyString => None
        | _ => if all_digits ds
               then Some (if neg then - digits_to_Z 0 ds else digits_to_Z 0 ds)
               else None
        end
      else None
  end.

(** The special values of the numeric-string grammar, case-insensitive. *)
Definition parse_special (neg : bool) (s : string) : option numeric :=
  let l := lowercase s in
  if String.eqb l "inf" || String.eqb l "infinity" then Some (Infinity neg)
  else match l with
       | String "n" (String "a" (String "n" diag)) =>
           if all_digits diag then Some NaN else None
       | String "s" (String "n" (String "a" (String "n" diag))) =>
           if all_digits diag then Some NaN else None
       | _ => None
       end.

(** [Decimal(s)] for a [str] of ASCII characters, after the grammar of
    numeric strings: an optional sign, then digits with an optional fraction
    and an optional exponent, or a special value; [None] is
    [decimal.InvalidOperation]. The exponent is not bounded here, where
    [Decimal] refuses one beyond about 10^18. *)
Definition Decimal_of_str (s : string) : option numeric :=
  let (neg, body) := take_sign (remove_underscores (strip s)) in
  let (intpart, r1) := span_digits body in
  let '(fracpart, has_digit, r2) :=
    match r1 with
    | String "." r =>
        let (f, r') := span_digits r in
        (f, negb (String.eqb intpart "") || negb (String.eqb f ""), r')
    | _ => ("", negb (String.eqb intpart ""), r1)
    end in
  if has_digit then
    match parse_exponent r2 with
    | Some e =>
        Some (Finite {| _sign := neg;
                        _int := normalize_digits (intpart ++ fracpart);
                        _exp := e - Z.of_nat (String.length fracpart) |})
    | None => None
    end
  else parse_special neg body.

Fixpoint zeros (n : nat) : string :=
  match n with
  | O => ""
  | S n' => String "0" (zeros n')
  end.

(** [s or '0']. *)
Definition or_zero (s : string) : string :=
  match s with
  | EmptyString => "0"
  | _ => s
  end.

(** Where [Decimal.__format__] places the decimal point for the type ['f']:
    the digits before it and the digits after it. *)
Definition format_parts (int_ : string) (exp : Z) : string * string :=
  let len := Z.of_nat (String.length int_) in
  let dotplace := exp + len in
  if dotplace <? 0 then ("0", zeros (Z.to_nat (- dotplace)) ++ int_)
  else if len <? dotplace then (int_ ++ zeros (Z.to_nat (dotplace - len)), "")
  else (or_zero (substring 0 (Z.to_nat dotplace) int_),
        substring (Z.to_nat dotplace) (Z.to_nat (len - dotplace)) int_).

(** [_format_number] without a width, a precision or an exponent. *)
Definition format_number (is_negative : bool) (intpart fracpart : string)
    : string :=
  (if is_negative then "-" else "") ++ intpart ++
  (if String.eqb fracpart "" then "" else "." ++ fracpart).

(** [format(d, 'f')] of a finite [Decimal]: positional notation, every
    digit of the coefficient kept, no exponent. A zero with a positive
    exponent is rescaled to exponent 0 first. *)
Definition format_f (d : Decimal) : string :=
  let exp := if String.eqb (_int d) "0" && (0 <? _exp d) then 0 else _exp d in
  let (intpart, fracpart) := format_parts (_int d) exp in
  format_number (_sign d) intpart fracpart.

(** [str(n)] for an [int]. *)
Definition str_of_int (z : Z) : string :=
  NilZero.string_of_int (Z.to_int z).

End Python.

(* ===================================================================== *)
(** ** JSON documents *)
(* ===================================================================== *)

(** A JSON document as [json.loads] returns it and [json.dumps] takes it: an
    object is a [dict] keyed by strings. *)
Inductive json :=
| JNull
| JBool (b : bool)
| JInt (z : Z)
| JStr (s : string)
| JList (l : list json)
| JObject (o : gmap string json).

(** [len(data)] of a list or a dict ([TypeError] otherwise, which a dumped
    document never meets). *)
Definition len (data : json) : Z :=
  match data with
  | JList l => Z.of_nat (List.length l)
  | JObject o => Z.of_nat (size o)
  | JStr s => Z.of_nat (String.length s)
  | _ => 0
  end.

(* ===================================================================== *)
(** ** gateway/schemas.py *)
(* ===================================================================== *)

Module schemas.
Import Python.

(** *** The documents the schemas describe *)

(** A product, as [CreateProductSchema] lists its fields. *)
Record Product := {
  prod_id : string;
  prod_title : string;
  prod_maximum_speed : Z;
  prod_in_stock : Z;
  prod_passenger_capacity : Z
}.

(** What [UpdateProductSchema] loads: every key is present, [None] where the
    request gave nothing ([missing=None]) or [null]. *)
Record ProductUpdate := {
  upd_title : option string;
  upd_maximum_speed : option Z;
  upd_in_stock : option Z;
  upd_passenger_capacity : option Z
}.

(** What [CreateOrderDetailSchema] loads: the price is a [Decimal]. *)
Record OrderLineInput := {
  in_product_id : string;
  in_price : Decimal;
  in_quantity : Z
}.

(** What [CreateOrderDetailSchema] dumps, the line sent to the orders
    service: the price is a string ([as_string=True]). *)
Record OrderLine := {
  line_product_id : string;
  line_price : string;
  line_quantity : Z
}.

(** A line of an order as the orders service returns it; [od_product] and
    [od_image] are the keys the gateway adds, [None] while absent. *)
Record OrderDetail := {
  od_id : Z;
  od_quantity : Z;
  od_product_id : string;
  od_price : string;
  od_product : option Product;
  od_image : option string
}.

Record Order := {
  order_id : Z;
  order_details : list OrderDetail
}.

(** [schema.dump(obj)] returns [MarshalResult(data, errors)]; [errors] tells
    whether the error dictionary is non-empty. *)
Record MarshalResult := { data : json; errors : bool }.

(** *** Fields *)

(** [fields.Str] on load: only a string is valid. *)
Definition Str_deserialize (v : json) : option string :=
  match v with
  | JStr s => Some s
  | _ => None
  end.

(** [fields.Int] on load: [int(value)]; a list or an object is no number. *)
Definition Int_deserialize (v : json) : option Z :=
  match v with
  | JInt z => Some z
  | JBool b => Some (if b then 1 else 0)
  | JStr s => int_of_str s
  | _ => None
  end.

(** [fields.Decimal._format_num] on a string: [Decimal(str(value))], then
    NaN and infinities are refused ([allow_nan] is [False]). *)
Definition Decimal_format_num (s : string) : option Decimal :=
  match Decimal_of_str s with
  | Some (Finite d) => Some d
  | _ => None
  end.

(** [fields.Decimal] on load. [str] of a list or a dict is never a numeric
    string. *)
Definition Decimal_deserialize (v : json) : option Decimal :=
  match v with
  | JStr s => Decimal_format_num s
  | JInt z => Decimal_format_num (str_of_int z)
  | JBool b => Decimal_format_num (if b then "True" else "False")
  | _ => None
  end.

(** [fields.Decimal(as_string=True)] on dump of a [Decimal]:
    [Decimal(str(d))] is [d] again, written by [format(d, 'f')]. *)
Definition Decimal_serialize (d : Decimal) : string := format_f d.

(** A field that is [required=True]: a missing key and [null] are errors. *)
Definition required {A} (deserialize : json -> option A)
    (o : gmap string json) (key : string) : option A :=
  match o !! key with
  | None | Some JNull => None
  | Some v => deserialize v
  end.

(** A field with [required=False, missing=None]: a missing key and [null]
    both load as [None]; the outer [option] is the validation. *)
Definition missing_None {A} (deserialize : json -> option A)
    (o : gmap string json) (key : string) : option (option A) :=
  match o !! key with
  | None | Some JNull => Some None
  | Some v => match deserialize v with
              | Some a => Some (Some a)
              | None => None
              end
  end.

(** *** CreateProductSchema *)

Definition CreateProductSchema_dump (p : Product) : json :=
  JObject (<["id" := JStr (prod_id p)]>
          (<["title" := JStr (prod_title p)]>
          (<["maximum_speed" := JInt (prod_maximum_speed p)]>
          (<["in_stock" := JInt (prod_in_stock p)]>
          (<["passenger_capacity" := JInt (prod_passenger_capacity p)]> ∅))))).

(** *** UpdateProductSchema *)

(** [UpdateProductSchema(strict=True).load(data)] for a body that is an
    object: keys the schema does not declare are ignored. *)
Definition UpdateProductSchema_load (body : json) : outcome ProductUpdate :=
  match body with
  | JObject o =>
      match missing_None Str_deserialize o "title",
            missing_None Int_deserialize o "maximum_speed",
            missing_None Int_deserialize o "in_stock",
            missing_None Int_deserialize o "passenger_capacity" with
      | Some t, Some m, Some i, Some c =>
          Ok {| upd_title := t; upd_maximum_speed := m;
                upd_in_stock := i; upd_passenger_capacity := c |}
      | _, _, _, _ => Error ValidationError
      end
  | _ => Error ValidationError
  end.

(** *** CreateOrderDetailSchema and CreateOrderSchema *)

(** [CreateOrderDetailSchema] on load of an element that is not [null]:
    the three fields are required. *)
Definition CreateOrderDetailSchema_load (item : json) : option OrderLineInput :=
  match item with
  | JObject o =>
      match required Str_deserialize o "product_id",
            required Decimal_deserialize o "price",
            required Int_deserialize o "quantity" with
      | Some p, Some d, Some q =>
          Some {| in_product_id := p; in_price := d; in_quantity := q |}
      | _, _, _ => None
      end
  | _ => None
  end.

(** [Nested(..., many=True)]: every element is loaded; one failure fails the
    whole list. *)
Fixpoint load_many {A} (load : json -> option A) (l : list json)
    : option (list A) :=
  match l with
  | [] => Some []
  | x :: l' =>
      match load x, load_many load l' with
      | Some a, Some r => Some (a :: r)
      | _, _ => None
      end
  end.

(** [CreateOrderSchema(strict=True).load(data)] for a body that is an
    object, that is [.data] of it: the list under ['order_details']. *)
Definition CreateOrderSchema_load (body : json) : outcome (list OrderLineInput) :=
  match body with
  | JObject o =>
      match o !! "order_details" with
      | Some (JList l) =>
          match load_many CreateOrderDetailSchema_load l with
          | Some lines => Ok lines
          | None => Error ValidationError
          end
      | _ => Error ValidationError
      end
  | _ => Error ValidationError
  end.

Definition CreateOrderDetailSchema_dump (item : OrderLineInput) : OrderLine :=
  {| line_product_id := in_product_id item;
     line_price := Decimal_serialize (in_price item);
     line_quantity := in_quantity item |}.

(** [CreateOrderSchema().dump(order_data).data['order_details']]. *)
Definition CreateOrderSchema_dump (order_data : list OrderLineInput)
    : list OrderLine :=
  map CreateOrderDetailSchema_dump order_data.

(** *** GetOrderSchema *)

Definition insert_opt (key : string) (v : option json)
    (o : gmap string json) : gmap string json :=
  match v with
  | Some j => <[key := j]> o
  | None => o
  end.

(** [GetOrderSchema.OrderDetail]: a key the object lacks is left out, and so
    is a field that fails to serialize, which is recorded in [errors]. The
    nested class derives from [Schema], so it has no [post_dump] hook. *)
Definition OrderDetail_dump (item : OrderDetail) : MarshalResult :=
  let price := Decimal_format_num (od_price item) in
  {| data :=
       JObject (<["id" := JInt (od_id item)]>
               (<["quantity" := JInt (od_quantity item)]>
               (<["product_id" := JStr (od_product_id item)]>
               (insert_opt "image" (JStr <$> od_image item)
               (insert_opt "price" (JStr ∘ Decimal_serialize <$> price)
               (insert_opt "product" (CreateProductSchema_dump <$> od_product item)
                ∅))))));
     errors := negb (bool_decide (is_Some price)) |}.

(** [wrap_with_count], the [post_dump(pass_many=True)] hook. *)
Definition wrap_with_count (data : json) (many : bool) : json :=
  if many
  then JObject (<["count" := JInt (len data)]> (<["data" := data]> ∅))
  else data.

(** The fields of one order, before the hook. *)
Definition GetOrderSchema_marshal (order : Order) : MarshalResult :=
  let details := map OrderDetail_dump (order_details order) in
  {| data := JObject (<["id" := JInt (order_id order)]>
                     (<["order_details" := JList (map data details)]> ∅));
     errors := existsb errors details |}.

(** [Schema.dump]: the [post_dump] hooks run only when marshalling left no
    error; the schema is not strict, so errors do not raise. *)
Definition dump_with_hook (many : bool) (r : MarshalResult) : MarshalResult :=
  {| data := if errors r then data r else wrap_with_count (data r) many;
     errors := errors r |}.

(** [GetOrderSchema().dump(order)]. *)
Definition GetOrderSchema_dump (order : Order) : MarshalResult :=
  dump_with_hook false (GetOrderSchema_marshal order).

(** [GetOrderSchema(many=True).dump(orders)]. *)
Definition GetOrderSchema_dump_many (orders : list Order) : MarshalResult :=
  let rs := map GetOrderSchema_marshal orders in
  dump_with_hook true
    {| data := JList (map data rs); errors := existsb errors rs |}.

End schemas.

(* ===================================================================== *)
(** ** The remote services *)
(* ===================================================================== *)

Module rpc.
Import Python schemas.

(** [RpcProxy('products')]: each method takes the state of the products
    service to an answer, or an exception, and a new state. *)
Record ProductsRpc := {
  products_state : Type;
  get : string -> products_state -> outcome Product * products_state;
  exists_ : string -> products_state -> outcome bool * products_state;
  update : string -> ProductUpdate -> products_state
           -> outcome unit * products_state
}.

(** [RpcProxy('orders')]. [create_order] answers with the ['id'] entry of
    the document the service returns. *)
Record OrdersRpc := {
  orders_state : Type;
  get_order : Z -> orders_state -> outcome Order * orders_state;
  list_orders : Z -> Z -> orders_state -> outcome (list Order) * orders_state;
  create_order : list OrderLine -> orders_state -> outcome Z * orders_state
}.

(** A remote call, as the gateway issues it. *)
Inductive call :=
| Products_get (product_id : string)
| Products_exists (product_id : string)
| Products_update (product_id : string) (data : ProductUpdate)
| Orders_get_order (order_id : Z)
| Orders_list_orders (page per_page : Z)
| Orders_create_order (lines : list OrderLine).

Definition is_create_order (c : call) : bool :=
  match c with Orders_create_order _ => true | _ => false end.

Definition is_exists (c : call) : bool :=
  match c with Products_exists _ => true | _ => false end.

(** How many calls of a kind a log holds. *)
Definition count (kind : call -> bool) (log : list call) : nat :=
  List.length (List.filter kind log).

Section World.
Context (P : ProductsRpc) (O : OrdersRpc).

(** The two services and the calls issued so far, oldest first. *)
Record world := {
  products : products_state P;
  orders : orders_state O;
  calls : list call
}.

(** Code of the gateway: it runs in a world and returns or raises. *)
Definition M (A : Type) : Type := world -> outcome A * world.

Definition ret {A} (a : A) : M A := fun w => (Ok a, w).

Definition raise {A} (e : exn) : M A := fun w => (Error e, w).

Definition bind {A B} (m : M A) (k : A -> M B) : M B :=
  fun w =>
    match m w with
    | (Ok a, w') => k a w'
    | (Error e, w') => (Error e, w')
    end.

Definition lift {A} (r : outcome A) : M A := fun w => (r, w).

(** A call on the products proxy: logged, then answered. *)
Definition on_products {A} (c : call)
    (f : products_state P -> outcome A * products_state P) : M A :=
  fun w =>
    let (r, s) := f (products w) in
    (r, {| products := s; orders := orders w; calls := calls w ++ [c] |}).

Definition on_orders {A} (c : call)
    (f : orders_state O -> outcome A * orders_state O) : M A :=
  fun w =>
    let (r, s) := f (orders w) in
    (r, {| products := products w; orders := s; calls := calls w ++ [c] |}).

Definition products_rpc_get (product_id : string) : M Product :=
  on_products (Products_get product_id) (get P product_id).

Definition products_rpc_exists (product_id : string) : M bool :=
  on_products (Products_exists product_id) (exists_ P product_id).

Definition products_rpc_update (product_id : string) (data : ProductUpdate)
    : M unit :=
  on_products (Products_update product_id data) (update P product_id data).

Definition orders_rpc_get_order (order_id : Z) : M Order :=
  on_orders (Orders_get_order order_id) (get_order O order_id).

Definition orders_rpc_list_orders (page per_page : Z) : M (list Order) :=
  on_orders (Orders_list_orders page per_page) (list_orders O page per_page).

Definition orders_rpc_create_order (lines : list OrderLine) : M Z :=
  on_orders (Orders_create_order lines) (create_order O lines).

(** The calls a run added to the log. *)
Definition issued (before after : world) : list call :=
  drop (List.length (calls before)) (calls after).

End World.

Arguments products {P O} _.
Arguments orders {P O} _.
Arguments calls {P O} _.
Arguments ret {P O A} _ _.
Arguments raise {P O A} _ _.
Arguments bind {P O A B} _ _ _.
Arguments lift {P O A} _ _.
Arguments issued {P O} _ _.

End rpc.

Declare Scope gateway_scope.
Delimit Scope gateway_scope with gateway.
Notation "x <- m ;; k" := (rpc.bind m (fun x => k))
  (at level 100, m at next level, right associativity) : gateway_scope.
Notation "m ;;; k" := (rpc.bind m (fun _ => k))
  (at level 100, right associativity) : gateway_scope.

(* ===================================================================== *)
(** ** gateway/service.py *)
(* ===================================================================== *)

Module service.
Import Python schemas rpc.
Local Open Scope gateway_scope.

Inductive HTTPStatus := OK | CREATED.

(** [werkzeug.Response]; [response] is the document that was written with
    [json.dumps] or [schema.dumps]. *)
Record Response := {
  response : json;
  status : HTTPStatus;
  mimetype : string
}.

(** What a handler reads of the request: [json.loads] of the body text, or
    the message of the [ValueError] it raises, and the query parameters in
    the order of the query string. *)
Record Request := {
  get_data : result json string;
  args : list (string * string)
}.

(** [request.args.get(key)]: the first value given for the key. *)
Fixpoint args_get (a : list (string * string)) (key : string) : option string :=
  match a with
  | [] => None
  | (k, v) :: a' => if String.eqb k key then Some v else args_get a' key
  end.

(** [int(request.args.get(key, default))]. *)
Definition int_arg (a : list (string * string)) (key : string) (default : Z)
    : outcome Z :=
  match args_get a key with
  | None => Ok default
  | Some s => match int_of_str s with
              | Some z => Ok z
              | None => Error ValueError
              end
  end.

(** [schema.loads(request.get_data(as_text=True)).data] under
    [except ValueError as exc: raise BadRequest(...)]. *)
Definition loads {A} (load : json -> outcome A) (request : Request) : outcome A :=
  match get_data request with
  | Ok body => load body
  | Error exc => Error (BadRequest ("Invalid json: " ++ exc))
  end.

Section GatewayService.
Context (P : ProductsRpc) (O : OrdersRpc).
(** [config['PRODUCT_IMAGE_ROOT']]. *)
Context (PRODUCT_IMAGE_ROOT : string).

Local Abbreviation M := (M P O).

Definition json_id (v : json) : json := JObject (<["id" := v]> ∅).

Definition update_product (request : Request) (product_id : string)
    : M Response :=
  product_data <- lift (loads UpdateProductSchema_load request) ;;
  products_rpc_update P O product_id product_data ;;;
  ret {| response := json_id (JStr product_id);
         status := OK;
         mimetype := "application/json" |}.

(** The body of the loop of [_get_order]. *)
Definition enhance (image_root : string) (item : OrderDetail) : M OrderDetail :=
  let product_id := od_product_id item in
  product <- products_rpc_get P O product_id ;;
  ret {| od_id := od_id item;
         od_quantity := od_quantity item;
         od_product_id := od_product_id item;
         od_price := od_price item;
         od_product := Some product;
         od_image := Some (image_root ++ "/" ++ product_id ++ ".jpg") |}.

(** [for item in order['order_details']: ...], the items as the loop
    leaves them. *)
Fixpoint enhance_all (image_root : string) (items : list OrderDetail)
    : M (list OrderDetail) :=
  match items with
  | [] => ret []
  | item :: rest =>
      item' <- enhance image_root item ;;
      rest' <- enhance_all image_root rest ;;
      ret (item' :: rest')
  end.

Definition _get_order (order_id : Z) : M Order :=
  order <- orders_rpc_get_order P O order_id ;;
  let image_root := PRODUCT_IMAGE_ROOT in
  details <- enhance_all image_root (order_details order) ;;
  ret {| order_id := schemas.order_id order; order_details := details |}.

Definition get_order (request : Request) (order_id : Z) : M Response :=
  order <- _get_order order_id ;;
  ret {| response := data (GetOrderSchema_dump order);
         status := OK;
         mimetype := "application/json" |}.

Definition list_orders (request : Request) : M Response :=
  page <- lift (int_arg (args request) "p" 1) ;;
  per_page <- lift (int_arg (args request) "per_page" 10) ;;
  orders <- orders_rpc_list_orders P O page per_page ;;
  ret {| response := data (GetOrderSchema_dump_many orders);
         status := OK;
         mimetype := "application/json" |}.

(** The first loop of [_create_order]. *)
Fixpoint check_products (items : list OrderLineInput) : M unit :=
  match items with
  | [] => ret tt
  | item :: rest =>
      found <- products_rpc_exists P O (in_product_id item) ;;
      if negb found
      then raise (ProductNotFound ("Product Id " ++ in_product_id item))
      else check_products rest
  end.

Definition _create_order (order_data : list OrderLineInput) : M Z :=
  check_products order_data ;;;
  let serialized_data := CreateOrderSchema_dump order_data in
  orders_rpc_create_order P O serialized_data.

Definition create_order (request : Request) : M Response :=
  order_data <- lift (loads CreateOrderSchema_load request) ;;
  id_ <- _create_order order_data ;;
  ret {| response := json_id (JInt id_);
         status := CREATED;
         mimetype := "application/json" |}.

End GatewayService.

End service.

(* ===================================================================== *)
(** ** In-memory services *)
(* ===================================================================== *)

Module memory.
Import Python schemas rpc.

(** Modelled from the spec: the products service is not part of the gateway
    sources. [Products.get(id)] answers with the product stored under the id
    and fails with a referential not-found error when there is none. *)
Definition products_get (product_id : string) (s : gmap string Product)
    : outcome Product * gmap string Product :=
  match s !! product_id with
  | Some p => (Ok p, s)
  | None => (Error (ProductNotFound ("Product ID " ++ product_id)), s)
  end.

(** Modelled from the spec: [Products.exists(id) -> bool]. *)
Definition products_exists (product_id : string) (s : gmap string Product)
    : outcome bool * gmap string Product :=
  (Ok (bool_decide (is_Some (s !! product_id))), s).

(** Modelled from the spec: an update carries a subset of the updatable
    fields; a field that is not supplied ([None]) keeps its value. *)
Definition apply_update (data : ProductUpdate) (p : Product) : Product :=
  {| prod_id := prod_id p;
     prod_title := default (prod_title p) (upd_title data);
     prod_maximum_speed := default (prod_maximum_speed p) (upd_maximum_speed data);
     prod_in_stock := default (prod_in_stock p) (upd_in_stock data);
     prod_passenger_capacity :=
       default (prod_passenger_capacity p) (upd_passenger_capacity data) |}.

(** Modelled from the spec: [Products.update(id, data)] of the products
    service, which fails with not-found if the product id is absent and
    leaves all fields that were not supplied unchanged. *)
Definition products_update (product_id : string) (data : ProductUpdate)
    (s : gmap string Product) : outcome unit * gmap string Product :=
  match s !! product_id with
  | Some p => (Ok tt, <[product_id := apply_update data p]> s)
  | None => (Error (ProductNotFound ("Product ID " ++ product_id)), s)
  end.

(** Modelled from the spec: the products service, its state the catalogue. *)
Definition Products : ProductsRpc :=
  {| products_state := gmap string Product;
     get := products_get;
     exists_ := products_exists;
     update := products_update |}.

(** Modelled from the spec: the orders service gives every stored line an
    identity of its own and keeps product id, price (a decimal as a string)
    and quantity as it received them. *)
Fixpoint store_lines (first : Z) (lines : list OrderLine) : list OrderDetail :=
  match lines with
  | [] => []
  | l :: rest =>
      {| od_id := first;
         od_quantity := line_quantity l;
         od_product_id := line_product_id l;
         od_price := line_price l;
         od_product := None;
         od_image := None |} :: store_lines (first + 1) rest
  end.

(** Modelled from the spec: line identities are the positions of the lines
    among all stored lines. *)
Definition lines_stored (s : list Order) : Z :=
  Z.of_nat (List.length (List.concat (map order_details s))).

(** Modelled from the spec: [Orders.create_order(lines) -> {id}] of the
    orders service, which assigns the identity of the new order. *)
Definition orders_create_order (lines : list OrderLine) (s : list Order)
    : outcome Z * list Order :=
  let id := 1 + Z.of_nat (List.length s) in
  (Ok id,
   (s ++ [{| order_id := id;
             order_details := store_lines (1 + lines_stored s) lines |}])%list).

(** Modelled from the spec: [Orders.get_order(id)], not-found when no order
    has the identity. *)
Definition orders_get_order (id : Z) (s : list Order)
    : outcome Order * list Order :=
  match List.find (fun o => order_id o =? id) s with
  | Some o => (Ok o, s)
  | None => (Error (OrderNotFound ("Order with id " ++ str_of_int id)), s)
  end.

(** Modelled from the spec: [Orders.list_orders(page, size)], the orders of
    one page, not enriched. *)
Definition orders_list_orders (page per_page : Z) (s : list Order)
    : outcome (list Order) * list Order :=
  (Ok (take (Z.to_nat per_page) (drop (Z.to_nat ((page - 1) * per_page)) s)), s).

(** Modelled from the spec: the orders service, its state the stored orders,
    oldest first. *)
Definition Orders : OrdersRpc :=
  {| orders_state := list Order;
     get_order := orders_get_order;
     list_orders := orders_list_orders;
     create_order := orders_create_order |}.

(** A world of the two in-memory services, nothing called yet. *)
Definition start (ps : gmap string Product) (os : list Order)
    : world Products Orders :=
  Build_world Products Orders ps os [].

End memory.

(* ===================================================================== *)
(** ** What the claims speak of *)
(* ===================================================================== *)

Import Python schemas rpc service.
Local Open Scope gateway_scope.

(** Every character of a string passes a test. *)
Fixpoint every (p : ascii -> bool) (s : string) : bool :=
  match s with
  | String c s' => p c && every p s'
  | EmptyString => true
  end.

(** The characters of a number in positional notation. *)
Definition plain_char (c : ascii) : bool :=
  is_digit c || Ascii.eqb c "." || Ascii.eqb c "-".

(** A string that does not go on with a digit. *)
Definition no_digit_head (r : string) : Prop :=
  match r with
  | String c _ => is_digit c = false
  | EmptyString => True
  end.

(** The coefficient of a [Decimal] is a string of digits without leading
    zeros, as [Decimal(s)] builds it. *)
Definition wf_Decimal (d : Decimal) : Prop :=
  every is_digit (_int d) = true /\ normalize_digits (_int d) = _int d.

(** An entry of a JSON object. *)
Definition field (j : json) (key : string) : option json :=
  match j with
  | JObject o => o !! key
  | _ => None
  end.

(** The existence check of the products service is a query: in state [s] it
    answers [E product_id] and leaves the state as it was. *)
Definition exists_answers (P : ProductsRpc) (s : products_state P)
    (E : string -> bool) : Prop :=
  forall product_id, exists_ P product_id s = (Ok (E product_id), s).

(** Likewise for [get]: in state [s] it returns or raises [G product_id]. *)
Definition get_answers (P : ProductsRpc) (s : products_state P)
    (G : string -> outcome Product) : Prop :=
  forall product_id, get P product_id s = (G product_id, s).

(** A line after the loop of [_get_order], given the product that was
    fetched for it. *)
Definition enhanced (image_root : string) (product : Product)
    (item item' : OrderDetail) : Prop :=
  od_id item' = od_id item /\
  od_quantity item' = od_quantity item /\
  od_product_id item' = od_product_id item /\
  od_price item' = od_price item /\
  od_product item' = Some product /\
  od_image item' = Some (image_root ++ "/" ++ od_product_id item ++ ".jpg").

(** The orders service returns prices as decimals written as strings. *)
Definition decimal_prices (order : Order) : Prop :=
  Forall (fun item => is_Some (Decimal_format_num (od_price item)))
         (order_details order).

(** A [str] on which [int_of_str] is [int]: its characters are ASCII, so
    that no digit or space of Unicode is mapped to ASCII first, and it has
    at most 4300 characters, the default limit of Python on the digits of an
    integer conversion. *)
Definition int_literal (s : string) : Prop :=
  is_ascii s = true /\ (String.length s <= 4300)%nat.

(** A JSON value that is no [str] with a character outside ASCII. *)
Definition ascii_value (v : json) : bool :=
  match v with
  | JStr s => is_ascii s
  | _ => true
  end.

Definition ascii_field (x : json) (key : string) : bool :=
  match field x key with
  | Some v => ascii_value v
  | None => true
  end.

(** A price of a request on which [Decimal_deserialize] is the [Decimal]
    field of marshmallow, with [d] what it loads: a string of ASCII
    characters, short enough, with an exponent far inside the bounds of
    [Decimal] (about 10^18), or an integer short enough for [str]. *)
Definition price_input (v : json) (d : Decimal) : Prop :=
  match v with
  | JStr s => int_literal s /\ Z.abs (_exp d) <= 10 ^ 9
  | JInt z => Z.abs z < 10 ^ 4300
  | _ => False
  end.

(** A decimal with its positive exponent written out: the same number with
    an exponent that is zero or negative. *)
Definition positional (d : Decimal) : Decimal :=
  if 0 <? _exp d
  then {| _sign := _sign d;
          _int := if String.eqb (_int d) "0" then "0"
                  else _int d ++ zeros (Z.to_nat (_exp d));
          _exp := 0 |}
  else d.

(** A line sent to the orders service for a loaded line of the request: the
    same product id and quantity, and the price written by [format(d, 'f')],
    a string in positional notation that reads as the decimal that was
    loaded. *)
Definition sent_as (item : OrderLineInput) (line : OrderLine) : Prop :=
  line_product_id line = in_product_id item /\
  line_quantity line = in_quantity item /\
  line_price line = format_f (in_price item) /\
  (wf_Decimal (in_price item) ->
   every plain_char (line_price line) = true /\
   Decimal_format_num (line_price line) = Some (positional (in_price item))).

(** An element of the listing for an order the orders service returned: an
    object with the id of the order and one entry for each of its lines. *)
Definition listed_as (order : Order) (item : json) : Prop :=
  field item "id" = Some (JInt (order_id order)) /\
  exists lines,
    field item "order_details" = Some (JList lines) /\
    Forall2 (fun line entry => field entry "id" = Some (JInt (od_id line)))
            (order_details order) lines.

(** Whether a call returned rather than raised. *)
Definition returns {A} (r : outcome A) : bool :=
  match r with
  | Ok _ => true
  | Error _ => false
  end.

(** The update body [{"title": "New"}] and what [UpdateProductSchema] loads
    from it. *)
Definition title_New : json := JObject (<["title" := JStr "New"]> ∅).

Definition only_title_New : ProductUpdate :=
  {| upd_title := Some "New";
     upd_maximum_speed := None;
     upd_in_stock := None;
     upd_passenger_capacity := None |}.

(** The order body [{"order_details": [{"product_id": "p1", "price": "9.99",
    "quantity": 2}]}]. *)
Definition line_p1 : json :=
  JObject (<["product_id" := JStr "p1"]>
          (<["price" := JStr "9.99"]>
          (<["quantity" := JInt 2]> ∅))).


Definition json_response (status : HTTPStatus) (body : json) : Response :=
  {| response := body; status := status; mimetype := "application/json" |}.

(** The response of a handler that passes on what a remote call answered. *)
Definition respond {A} (r : outcome A) (f : A -> Response) : outcome Response :=
  match r with
  | Ok a => Ok (f a)
  | Error e => Error e
  end.

(* ===================================================================== *)
(** ** Sample data *)
(* ===================================================================== *)

Module sample.

Definition odyssey : Product :=
  {| prod_id := "p1";
     prod_title := "The Odyssey";
     prod_maximum_speed := 5;
     prod_in_stock := 10;
     prod_passenger_capacity := 101 |}.

(** A catalogue with the single product "p1". *)
Definition catalogue : gmap string Product := <["p1" := odyssey]> ∅.

Definition in_catalogue (product_id : string) : bool :=
  bool_decide (is_Some (catalogue !! product_id)).

Definition fetch (product_id : string) : outcome Product :=
  fst (memory.products_get product_id catalogue).

Definition line_of (product_id : string) : OrderLineInput :=
  {| in_product_id := product_id;
     in_price := {| _sign := false; _int := "999"; _exp := -2 |};
     in_quantity := 2 |}.

Definition stored_line (id : Z) (product_id : string) : OrderDetail :=
  {| od_id := id;
     od_quantity := 2;
     od_product_id := product_id;
     od_price := "9.99";
     od_product := None;
     od_image := None |}.

(** An order of "p1", and one that also refers to a product that is gone. *)
Definition order_1 : Order :=
  {| order_id := 1; order_details := [stored_line 1 "p1"] |}.

Definition order_2 : Order :=
  {| order_id := 2;
     order_details := [stored_line 2 "p1"; stored_line 3 "ghost"] |}.

Definition world0 : world memory.Products memory.Orders :=
  memory.start catalogue [order_1; order_2].

Definition no_body : result json string :=
  Error "Expecting value: line 1 column 1 (char 0)".

Definition get_request : Request := {| get_data := no_body; args := [] |}.

Definition page_2_of_5 : Request :=
  {| get_data := no_body; args := [("p", "2"); ("per_page", "5")] |}.

Definition page_abc : Request :=
  {| get_data := no_body; args := [("p", "abc")] |}.

Definition post_no_lines : Request :=
  {| get_data := Ok (JObject (<["order_details" := JList []]> ∅)); args := [] |}.


Definition patch_title_New : Request := {| get_data := Ok title_New; args := [] |}.

End sample.

(* ===================================================================== *)
(** ** The product handlers of gateway/service.py *)
(* ===================================================================== *)

Module catalog.

(** [CreateProductSchema(strict=True).load(data)] for a body that is an
    object: the five fields are required, keys the schema does not declare
    are ignored. *)
Definition CreateProductSchema_load (body : json) : outcome Product :=
  match body with
  | JObject o =>
      match required Str_deserialize o "id",
            required Str_deserialize o "title",
            required Int_deserialize o "maximum_speed",
            required Int_deserialize o "in_stock",
            required Int_deserialize o "passenger_capacity" with
      | Some i, Some t, Some m, Some s, Some c =>
          Ok {| prod_id := i; prod_title := t; prod_maximum_speed := m;
                prod_in_stock := s; prod_passenger_capacity := c |}
      | _, _, _, _, _ => Error ValidationError
      end
  | _ => Error ValidationError
  end.

(** The two methods of [RpcProxy('products')] that add and remove products,
    over the state of the same service. *)
Record ProductsCatalogRpc (P : ProductsRpc) := {
  create : Product -> products_state P -> outcome unit * products_state P;
  delete_ : string -> products_state P -> outcome unit * products_state P
}.

Arguments create {P} _ _ _.
Arguments delete_ {P} _ _ _.

(** The calls of these two methods, logged beside the other calls. *)
Inductive catalog_call :=
| Products_create (data : Product)
| Products_delete (product_id : string).

Definition json_deleted_id (v : json) : json := JObject (<["deleted_id" := v]> ∅).

Section Handlers.
Context (P : ProductsRpc) (O : OrdersRpc) (C : ProductsCatalogRpc P).

Local Open Scope gateway_scope.

Definition get_product (request : Request) (product_id : string)
    : M P O Response :=
  product <- products_rpc_get P O product_id ;;
  ret {| response := CreateProductSchema_dump product;
         status := OK;
         mimetype := "application/json" |}.

(** The world of the gateway and the log of the catalogue calls. *)
Record catalog_world := {
  gateway : world P O;
  catalog_calls : list catalog_call
}.

(** A catalogue call on the products proxy: logged, then answered. *)
Definition on_catalog {A} (c : catalog_call)
    (f : products_state P -> outcome A * products_state P)
    (w : catalog_world) : outcome A * catalog_world :=
  let (r, s) := f (products (gateway w)) in
  (r, {| gateway := Build_world P O s (orders (gateway w)) (calls (gateway w));
         catalog_calls := catalog_calls w ++ [c] |}).

Definition create_product (request : Request) (w : catalog_world)
    : outcome Response * catalog_world :=
  match loads CreateProductSchema_load request with
  | Error e => (Error e, w)
  | Ok product_data =>
      match on_catalog (Products_create product_data) (create C product_data) w with
      | (Ok _, w') =>
          (Ok {| response := json_id (JStr (prod_id product_data));
                 status := CREATED;
                 mimetype := "application/json" |}, w')
      | (Error e, w') => (Error e, w')
      end
  end.

Definition delete_product (request : Request) (product_id : string)
    (w : catalog_world) : outcome Response * catalog_world :=
  match on_catalog (Products_delete product_id) (delete_ C product_id) w with
  | (Ok _, w') =>
      (Ok {| response := json_deleted_id (JStr product_id);
             status := OK;
             mimetype := "application/json" |}, w')
  | (Error e, w') => (Error e, w')
  end.

End Handlers.

Arguments gateway {P O} _.
Arguments catalog_calls {P O} _.

(** Modelled from the spec: [Products.create(data)] of the products service,
    which refuses an id that is already in the catalogue. *)
Definition products_create (p : Product) (s : gmap string Product)
    : outcome unit * gmap string Product :=
  match s !! prod_id p with
  | Some _ => (Error (ProductExists ("Product ID " ++ prod_id p)), s)
  | None => (Ok tt, <[prod_id p := p]> s)
  end.

(** Modelled from the spec: [Products.delete(id)] of the products service,
    not-found when no product has the id. *)
Definition products_delete (product_id : string) (s : gmap string Product)
    : outcome unit * gmap string Product :=
  match s !! product_id with
  | Some _ => (Ok tt, delete product_id s)
  | None => (Error (ProductNotFound ("Product ID " ++ product_id)), s)
  end.

(** Modelled from the spec: the catalogue methods of the in-memory products
    service. *)
Definition Catalog : ProductsCatalogRpc memory.Products :=
  Build_ProductsCatalogRpc memory.Products products_create products_delete.

(** The names of the fields [UpdateProductSchema] declares. *)
Definition update_fields : list string :=
  ["title"; "maximum_speed"; "in_stock"; "passenger_capacity"].

(** The names of the fields [CreateProductSchema] declares. *)
Definition product_fields : list string :=
  ["id"; "title"; "maximum_speed"; "in_stock"; "passenger_capacity"].


(** Sample requests and a world for the catalogue handlers. *)
Definition world0 : catalog_world memory.Products memory.Orders :=
  {| gateway := sample.world0; catalog_calls := [] |}.

Definition post_odyssey : Request :=
  {| get_data := Ok (CreateProductSchema_dump sample.odyssey); args := [] |}.

Definition post_without_title : Request :=
  {| get_data := Ok (JObject (<["id" := JStr "p2"]>
                             (<["maximum_speed" := JInt 5]>
                             (<["in_stock" := JInt 10]>
                             (<["passenger_capacity" := JInt 101]> ∅)))));
     args := [] |}.

Definition post_bad_line : Request :=
  {| get_data :=
       Ok (JObject (<["order_details" :=
                       JList [line_p1;
                              JObject (<["product_id" := JStr "p1"]>
                                      (<["price" := JStr "cheap"]>
                                      (<["quantity" := JInt 1]> ∅)))]]> ∅));
     args := [] |}.

Definition patch_with_id : Request :=
  {| get_data := Ok (JObject (<["id" := JStr "other"]>
                             (<["title" := JStr "New"]> ∅)));
     args := [] |}.

Definition patch_null_stock : Request :=
  {| get_data := Ok (JObject (<["in_stock" := JNull]>
                             (<["title" := JStr "New"]> ∅)));
     args := [] |}.

Definition enigma : Product :=
  {| prod_id := "p2";
     prod_title := "The Enigma";
     prod_maximum_speed := 200;
     prod_in_stock := 5;
     prod_passenger_capacity := 4 |}.

Definition post_enigma : Request :=
  {| get_data := Ok (CreateProductSchema_dump enigma); args := [] |}.

Definition patch_title_number : Request :=
  {| get_data := Ok (JObject (<["title" := JInt 7]> ∅)); args := [] |}.

Definition bad_json : Request :=
  {| get_data := Error "Expecting value: line 1 column 1 (char 0)"; args := [] |}.


End catalog.

(* ===================================================================== *)
(** ** The builtins and the schemas on examples *)
(* ===================================================================== *)

Example int_of_str_plain : int_of_str "2" = Some 2.
Proof. reflexivity. Qed.

Example int_of_str_spaces_sign_groups : int_of_str " +1_000 " = Some 1000.
Proof. reflexivity. Qed.

Example int_of_str_negative : int_of_str "-7" = Some (-7).
Proof. reflexivity. Qed.

Example int_of_str_letters : int_of_str "abc" = None.
Proof. reflexivity. Qed.

Example int_of_str_empty : int_of_str "" = None.
Proof. reflexivity. Qed.

Example int_of_str_fraction : int_of_str "2.5" = None.
Proof. reflexivity. Qed.

Example int_of_str_double_underscore : int_of_str "1__0" = None.
Proof. reflexivity. Qed.

Example int_of_str_tab_newline :
  int_of_str (String (ascii_of_nat 9) ("42" ++ String (ascii_of_nat 10) "")) = Some 42.
Proof. reflexivity. Qed.

(** The separator U+001C is white space for [str.strip] and [Decimal], not
    for [int]. *)
Example int_of_str_separator : int_of_str (String (ascii_of_nat 28) "5") = None.
Proof. reflexivity. Qed.

Example Decimal_of_str_separator :
  Decimal_of_str (String (ascii_of_nat 28) "5") =
  Some (Finite {| _sign := false; _int := "5"; _exp := 0 |}).
Proof. reflexivity. Qed.

Example Decimal_of_str_9_99 :
  Decimal_of_str "9.99" = Some (Finite {| _sign := false; _int := "999"; _exp := -2 |}).
Proof. reflexivity. Qed.

Example Decimal_of_str_leading_zeros :
  Decimal_of_str "007.50" = Some (Finite {| _sign := false; _int := "750"; _exp := -2 |}).
Proof. reflexivity. Qed.

Example Decimal_of_str_exponent :
  Decimal_of_str "-1.5E+3" = Some (Finite {| _sign := true; _int := "15"; _exp := 2 |}).
Proof. reflexivity. Qed.

Example Decimal_of_str_no_int_part :
  Decimal_of_str ".5" = Some (Finite {| _sign := false; _int := "5"; _exp := -1 |}).
Proof. reflexivity. Qed.

Example Decimal_of_str_dot : Decimal_of_str "." = None.
Proof. reflexivity. Qed.

Example Decimal_of_str_word : Decimal_of_str "cheap" = None.
Proof. reflexivity. Qed.

Example Decimal_of_str_nan : Decimal_of_str "NaN" = Some NaN.
Proof. reflexivity. Qed.

Example Decimal_of_str_infinity : Decimal_of_str "-Infinity" = Some (Infinity true).
Proof. reflexivity. Qed.

Example format_f_9_99 : format_f {| _sign := false; _int := "999"; _exp := -2 |} = "9.99".
Proof. reflexivity. Qed.

Example format_f_trailing_zero :
  format_f {| _sign := false; _int := "750"; _exp := -2 |} = "7.50".
Proof. reflexivity. Qed.

Example format_f_small : format_f {| _sign := false; _int := "1"; _exp := -7 |} = "0.0000001".
Proof. reflexivity. Qed.

Example format_f_exponent : format_f {| _sign := true; _int := "15"; _exp := 2 |} = "-1500".
Proof. reflexivity. Qed.

Example format_f_zero : format_f {| _sign := false; _int := "0"; _exp := 5 |} = "0".
Proof. reflexivity. Qed.

Example Decimal_deserialize_number :
  Decimal_deserialize (JInt 12) = Some {| _sign := false; _int := "12"; _exp := 0 |}.
Proof. reflexivity. Qed.

Example Decimal_deserialize_nan : Decimal_deserialize (JStr "nan") = None.
Proof. reflexivity. Qed.

Example Decimal_deserialize_bool : Decimal_deserialize (JBool true) = None.
Proof. reflexivity. Qed.

(** A line without a price, a line with [null] for the quantity and a body
    that is not an object are refused. *)
Example CreateOrderSchema_load_missing_price :
  CreateOrderSchema_load
    (JObject (<["order_details" :=
                 JList [JObject (<["product_id" := JStr "p1"]>
                                (<["quantity" := JInt 2]> ∅))]]> ∅))
  = Error ValidationError.
Proof. vm_compute. reflexivity. Qed.

Example CreateOrderSchema_load_null_quantity :
  CreateOrderSchema_load
    (JObject (<["order_details" :=
                 JList [JObject (<["product_id" := JStr "p1"]>
                                (<["price" := JStr "9.99"]>
                                (<["quantity" := JNull]> ∅)))]]> ∅))
  = Error ValidationError.
Proof. vm_compute. reflexivity. Qed.

Example CreateOrderSchema_load_no_details :
  CreateOrderSchema_load (JObject ∅) = Error ValidationError.
Proof. vm_compute. reflexivity. Qed.

Example CreateOrderSchema_load_list : CreateOrderSchema_load (JList []) = Error ValidationError.
Proof. reflexivity. Qed.

(** An update may name a field as [null], or bring keys the schema does not
    declare. *)
Example UpdateProductSchema_load_null_and_unknown :
  UpdateProductSchema_load
    (JObject (<["id" := JStr "the_odyssey"]>
             (<["title" := JStr "The New Odyssey"]>
             (<["in_stock" := JNull]> ∅))))
  = Ok {| upd_title := Some "The New Odyssey";
          upd_maximum_speed := None;
          upd_in_stock := None;
          upd_passenger_capacity := None |}.
Proof. vm_compute. reflexivity. Qed.

Example UpdateProductSchema_load_bad_speed :
  UpdateProductSchema_load (JObject (<["maximum_speed" := JStr "fast"]> ∅))
  = Error ValidationError.
Proof. vm_compute. reflexivity. Qed.

(* ===================================================================== *)
(** ** Decimal prices, written and read back *)
(* ===================================================================== *)

Section Decimals.

Lemma append_cons c a b : String c a ++ b = String c (a ++ b).
Proof. reflexivity. Qed.

Lemma append_nil_l b : "" ++ b = b.
Proof. reflexivity. Qed.

Lemma every_app p a b : every p (a ++ b) = every p a && every p b.
Proof.
  induction a as [|c a IH]; [done|].
  rewrite append_cons. simpl. by rewrite IH, andb_assoc.
Qed.

Lemma every_impl (p q : ascii -> bool) s :
  (forall c, p c = true -> q c = true) -> every p s = true -> every q s = true.
Proof.
  intros Hpq. induction s as [|c s IH]; simpl; [done|].
  intros [Hc Hs]%andb_true_iff. by rewrite (Hpq c Hc), IH.
Qed.

Lemma length_app_string a b :
  String.length (a ++ b) = (String.length a + String.length b)%nat.
Proof.
  induction a as [|c a IH]; [done|]. rewrite append_cons. simpl. by rewrite IH.
Qed.

Lemma app_nil_r_string a : a ++ "" = a.
Proof. induction a as [|c a IH]; [done|]. by rewrite append_cons, IH. Qed.

Lemma every_zeros n : every is_digit (zeros n) = true.
Proof. induction n; simpl; [done|]. by rewrite IHn. Qed.

Lemma length_zeros n : String.length (zeros n) = n.
Proof. induction n; simpl; [done|]. by rewrite IHn. Qed.

Lemma strip_zeros_zeros n s : strip_zeros (zeros n ++ s) = strip_zeros s.
Proof. induction n; [done|]. simpl zeros. rewrite append_cons. exact IHn. Qed.

Lemma substring_all s : substring 0 (String.length s) s = s.
Proof. induction s as [|c s IH]; simpl; [done|]. by rewrite IH. Qed.

Lemma substring_split n s :
  (n <= String.length s)%nat ->
  substring 0 n s ++ substring n (String.length s - n) s = s.
Proof.
  revert n. induction s as [|c s IH]; intros n Hn; simpl in *.
  - by destruct n.
  - destruct n as [|n]; simpl.
    + by rewrite substring_all.
    + rewrite append_cons, IH by lia. done.
Qed.

Lemma length_substring_0 n s :
  (n <= String.length s)%nat -> String.length (substring 0 n s) = n.
Proof.
  revert n. induction s as [|c s IH]; intros n Hn; simpl in *.
  - destruct n; [done|lia].
  - destruct n as [|n]; simpl; [done|]. rewrite IH by lia. done.
Qed.

Lemma length_substring_rest n s :
  (n <= String.length s)%nat ->
  String.length (substring n (String.length s - n) s) = (String.length s - n)%nat.
Proof.
  revert n. induction s as [|c s IH]; intros n Hn; simpl in *.
  - by destruct n.
  - destruct n as [|n]; simpl.
    + by rewrite substring_all.
    + apply IH. lia.
Qed.

Lemma lstrip_every s :
  every (negb ∘ is_space) s = true -> lstrip s = s.
Proof. destruct s as [|c s]; simpl; [done|]. intros [Hc _]%andb_true_iff.
  by destruct (is_space c). Qed.

Lemma rstrip_every s :
  every (negb ∘ is_space) s = true -> rstrip s = s.
Proof.
  induction s as [|c s IH]; simpl; [done|].
  intros [Hc Hs]%andb_true_iff. rewrite IH by done.
  destruct s; [|done]. by destruct (is_space c).
Qed.



Lemma remove_underscores_every s :
  every (fun c => negb (Ascii.eqb c "_")) s = true -> remove_underscores s = s.
Proof.
  induction s as [|c s IH]; simpl; [done|].
  intros [Hc Hs]%andb_true_iff. rewrite IH by done.
  by destruct (Ascii.eqb c "_").
Qed.


Lemma span_digits_app ds r :
  every is_digit ds = true -> no_digit_head r -> span_digits (ds ++ r) = (ds, r).
Proof.
  intros Hds Hr. induction ds as [|c ds IH].
  - rewrite append_nil_l. destruct r as [|c r]; simpl in *; [done|]. by rewrite Hr.
  - simpl in Hds. apply andb_true_iff in Hds as [Hc Hds].
    rewrite append_cons. simpl. by rewrite Hc, IH.
Qed.

Lemma span_digits_every ds : every is_digit ds = true -> span_digits ds = (ds, "").
Proof.
  intros H. rewrite <- (app_nil_r_string ds) at 1. by apply span_digits_app.
Qed.

Lemma take_sign_digit c s :
  is_digit c = true -> take_sign (String c s) = (false, String c s).
Proof.
  destruct c as [[] [] [] [] [] [] [] []]; vm_compute; intros H;
    try discriminate H; reflexivity.
Qed.

Lemma strip_zeros_cons c s :
  strip_zeros (String c s) = if Ascii.eqb c "0" then strip_zeros s else String c s.
Proof. destruct c as [[] [] [] [] [] [] [] []]; reflexivity. Qed.

Lemma every_plain_no_space s :
  every plain_char s = true -> every (negb ∘ is_space) s = true.
Proof.
  apply every_impl. intros c.
  destruct c as [[] [] [] [] [] [] [] []]; vm_compute; congruence.
Qed.


Lemma every_plain_no_underscore s :
  every plain_char s = true ->
  every (fun c => negb (Ascii.eqb c "_")) s = true.
Proof.
  apply every_impl. intros c.
  destruct c as [[] [] [] [] [] [] [] []]; vm_compute; congruence.
Qed.

Lemma every_digit_plain s : every is_digit s = true -> every plain_char s = true.
Proof.
  apply every_impl. intros c H. unfold plain_char. by rewrite H.
Qed.

Lemma format_number_plain sign ip fr :
  every is_digit ip = true -> every is_digit fr = true ->
  every plain_char (format_number sign ip fr) = true.
Proof.
  intros Hip Hfr. unfold format_number.
  rewrite !every_app, (every_digit_plain ip Hip).
  change ("." ++ fr) with (String "." fr).
  assert (Hdot : every plain_char (String "." fr) = true).
  { change (plain_char "." && every plain_char fr = true).
    by rewrite (every_digit_plain fr Hfr). }
  destruct sign, (String.eqb fr ""); rewrite ?Hdot; reflexivity.
Qed.

(** Reading back a number written in positional notation. *)
Lemma Decimal_of_str_format_number sign ip fr :
  every is_digit ip = true -> ip <> "" -> every is_digit fr = true ->
  Decimal_of_str (format_number sign ip fr) =
  Some (Finite {| _sign := sign;
                  _int := normalize_digits (ip ++ fr);
                  _exp := - Z.of_nat (String.length fr) |}).
Proof.
  intros Hip Hne Hfr. unfold Decimal_of_str.
  pose proof (format_number_plain sign ip fr Hip Hfr) as Hplain.
  unfold strip.
  rewrite (lstrip_every _ (every_plain_no_space _ Hplain)).
  rewrite (rstrip_every _ (every_plain_no_space _ Hplain)).
  rewrite (remove_underscores_every _ (every_plain_no_underscore _ Hplain)).
  unfold format_number.
  set (tail := if String.eqb fr "" then "" else "." ++ fr).
  assert (Hsign : take_sign ((if sign then "-" else "") ++ ip ++ tail)
                  = (sign, ip ++ tail)).
  { destruct sign; [reflexivity|]. rewrite append_nil_l.
    destruct ip as [|c ip]; [done|]. rewrite append_cons.
    apply take_sign_digit. simpl in Hip. by apply andb_true_iff in Hip as [? _]. }
  rewrite Hsign.
  assert (Htail : no_digit_head tail).
  { unfold tail. destruct (String.eqb fr ""); simpl; done. }
  rewrite (span_digits_app ip tail Hip Htail).
  assert (Hip' : String.eqb ip "" = false) by (by apply String.eqb_neq).
  unfold tail. destruct (String.eqb_spec fr "") as [->|Hfr'].
  - rewrite Hip'. simpl. by rewrite app_nil_r_string.
  - change ("." ++ fr) with (String "." fr). cbv iota beta.
    rewrite (span_digits_every fr Hfr). rewrite Hip'. simpl. done.
Qed.

Lemma strip_zeros_head s c r :
  strip_zeros s = String c r -> Ascii.eqb c "0" = false.
Proof.
  induction s as [|x s IH]; [done|]. rewrite strip_zeros_cons.
  destruct (Ascii.eqb x "0") eqn:Hx; [exact IH|]. by intros [= <- _].
Qed.

Lemma every_strip_zeros p s : every p s = true -> every p (strip_zeros s) = true.
Proof.
  induction s as [|x s IH]; [done|]. rewrite strip_zeros_cons. simpl.
  intros [Hx Hs]%andb_true_iff.
  destruct (Ascii.eqb x "0"); [by apply IH|]. simpl. by rewrite Hx, Hs.
Qed.

Lemma strip_zeros_idem s : strip_zeros (strip_zeros s) = strip_zeros s.
Proof.
  induction s as [|x s IH]; [done|]. rewrite strip_zeros_cons.
  destruct (Ascii.eqb x "0") eqn:Hx; [exact IH|].
  by rewrite strip_zeros_cons, Hx.
Qed.

Lemma normalize_digits_idem s :
  normalize_digits (normalize_digits s) = normalize_digits s.
Proof.
  unfold normalize_digits at 2 3.
  destruct (strip_zeros s) as [|c r] eqn:Hs; [reflexivity|].
  unfold normalize_digits. rewrite <- Hs, strip_zeros_idem. by rewrite Hs.
Qed.

Lemma every_normalize_digits s :
  every is_digit s = true -> every is_digit (normalize_digits s) = true.
Proof.
  intros H. unfold normalize_digits.
  pose proof (every_strip_zeros is_digit s H) as H'.
  by destruct (strip_zeros s).
Qed.

Lemma normalize_digits_zeros n s :
  normalize_digits (String "0" (zeros n ++ s)) = normalize_digits s.
Proof.
  unfold normalize_digits. by rewrite strip_zeros_cons, strip_zeros_zeros.
Qed.

Lemma normalize_digits_app s t :
  normalize_digits s = s -> s <> "0" -> normalize_digits (s ++ t) = s ++ t.
Proof.
  unfold normalize_digits. intros Hs Hne.
  destruct (strip_zeros s) as [|c r] eqn:Hstrip; [congruence|].
  subst s. rewrite append_cons, strip_zeros_cons.
  by rewrite (strip_zeros_head _ _ _ Hstrip).
Qed.

Lemma normalize_digits_nonempty s : normalize_digits s = s -> s <> "".
Proof. unfold normalize_digits. by destruct (strip_zeros s); intros <-. Qed.

Lemma substring_0_0 s : substring 0 0 s = "".
Proof. by destruct s. Qed.

Lemma substring_end s : substring (String.length s) 0 s = "".
Proof. induction s as [|c s IH]; [done|]. exact IH. Qed.

Lemma every_substring p n m s :
  every p s = true -> every p (substring n m s) = true.
Proof.
  revert n m. induction s as [|c s IH]; intros n m H.
  - by destruct n, m.
  - simpl in H. apply andb_true_iff in H as [Hc Hs].
    destruct n as [|n]; simpl.
    + destruct m as [|m]; [done|]. simpl. by rewrite Hc, IH.
    + by apply IH.
Qed.

Lemma or_zero_nonempty (x : string) : x <> "" -> or_zero x = x.
Proof. by destruct x. Qed.

Lemma every_or_zero x :
  every is_digit x = true -> every is_digit (or_zero x) = true.
Proof. by destruct x. Qed.

Lemma or_zero_not_empty x : or_zero x <> "".
Proof. by destruct x. Qed.

Lemma format_parts_integer s : s <> "" -> format_parts s 0 = (s, "").
Proof.
  intros Hs. unfold format_parts.
  destruct (Z.ltb_spec (0 + Z.of_nat (String.length s)) 0); [lia|].
  destruct (Z.ltb_spec (Z.of_nat (String.length s))
              (0 + Z.of_nat (String.length s))); [lia|].
  replace (Z.to_nat (0 + Z.of_nat (String.length s)))
    with (String.length s) by lia.
  replace (Z.to_nat (Z.of_nat (String.length s) -
                     (0 + Z.of_nat (String.length s)))) with 0%nat by lia.
  by rewrite substring_all, substring_end, or_zero_nonempty.
Qed.

(** The two parts [format_parts] returns are digits, and placing the point
    in the number they spell gives the same two parts. *)
Lemma format_parts_fixed int_ e :
  every is_digit int_ = true ->
  normalize_digits int_ = int_ ->
  ~ (int_ = "0" /\ 0 < e) ->
  forall ip fr,
    format_parts int_ e = (ip, fr) ->
    every is_digit ip = true /\ ip <> "" /\ every is_digit fr = true /\
    format_parts (normalize_digits (ip ++ fr)) (- Z.of_nat (String.length fr))
      = (ip, fr).
Proof.
  intros Hdigits Hnormal Hzero ip fr Hparts.
  pose proof (normalize_digits_nonempty int_ Hnormal) as Hne.
  assert (Hsame : normalize_digits (ip ++ fr) = int_ ->
                  - Z.of_nat (String.length fr) = e ->
                  format_parts (normalize_digits (ip ++ fr))
                    (- Z.of_nat (String.length fr)) = (ip, fr)).
  { by intros -> ->. }
  revert Hsame. unfold format_parts in Hparts.
  destruct (Z.ltb_spec (e + Z.of_nat (String.length int_)) 0) as [Hneg|Hpos].
  - (* the point lies left of the digits *)
    injection Hparts as <- <-. intros Hsame.
    split; [reflexivity|]. split; [done|].
    split; [by rewrite every_app, every_zeros, Hdigits|].
    apply Hsame.
    + change ("0" ++ ?x) with (String "0" x).
      by rewrite normalize_digits_zeros.
    + rewrite length_app_string, length_zeros. lia.
  - destruct (Z.ltb_spec (Z.of_nat (String.length int_))
                (e + Z.of_nat (String.length int_))) as [Hright|Hin].
    + (* the point lies right of the digits *)
      injection Hparts as <- <-. intros _.
      assert (Hnz : int_ <> "0") by (intros ->; apply Hzero; split; [done|lia]).
      split; [by rewrite every_app, every_zeros, Hdigits|].
      split; [by destruct int_|].
      split; [done|].
      rewrite app_nil_r_string, (normalize_digits_app _ _ Hnormal Hnz).
      change (- Z.of_nat (String.length "")) with 0.
      apply format_parts_integer. by destruct int_.
    + (* the point lies among the digits *)
      set (n := Z.to_nat (e + Z.of_nat (String.length int_))) in *.
      assert (Hn : (n <= String.length int_)%nat) by lia.
      replace (Z.to_nat (Z.of_nat (String.length int_) -
                         (e + Z.of_nat (String.length int_))))
        with (String.length int_ - n)%nat in Hparts by lia.
      injection Hparts as <- <-. intros Hsame.
      split; [|split; [|split; [by apply every_substring|]]].
      * by apply every_or_zero, every_substring.
      * apply or_zero_not_empty.
      * apply Hsame; [|rewrite length_substring_rest by done; lia].
        destruct n as [|n'] eqn:Hn0.
        -- rewrite substring_0_0, Nat.sub_0_r, substring_all.
           change (or_zero "" ++ int_) with (String "0" (zeros 0 ++ int_)).
           by rewrite normalize_digits_zeros.
        -- rewrite <- Hn0 in *.
           assert (Hip : substring 0 n int_ <> "").
           { intros Hempty. pose proof (length_substring_0 n int_ Hn) as Hl.
             rewrite Hempty in Hl. simpl in Hl. lia. }
           by rewrite (or_zero_nonempty _ Hip), substring_split.
Qed.

Lemma span_digits_digits s : forall a b,
  span_digits s = (a, b) -> every is_digit a = true.
Proof.
  induction s as [|c s IH]; intros a b; simpl.
  - by intros [= <- _].
  - destruct (is_digit c) eqn:Hc; [|by intros [= <- _]].
    destruct (span_digits s) as [d r]. intros [= <- _]. simpl.
    rewrite Hc. by apply (IH d r).
Qed.

(** What the field reads is a coefficient of digits without leading zeros. *)
Lemma Decimal_format_num_wf s d :
  Decimal_format_num s = Some d -> wf_Decimal d.
Proof.
  unfold Decimal_format_num, Decimal_of_str, parse_special. intros H.
  repeat (case_match; try discriminate); simplify_eq;
    (split; [|apply normalize_digits_idem]); simpl;
    apply every_normalize_digits; rewrite every_app;
    repeat match goal with
           | Hs : span_digits _ = (_, _) |- _ =>
               apply span_digits_digits in Hs; rewrite ?Hs
           end; reflexivity.
Qed.

(** A price written by [Decimal_serialize] is read back by the field and
    written again as the same string. *)
Theorem Decimal_serialize_reread d :
  wf_Decimal d ->
  exists d', Decimal_format_num (Decimal_serialize d) = Some d' /\
             Decimal_serialize d' = Decimal_serialize d.
Proof.
  intros [Hdigits Hnormal]. unfold Decimal_serialize, format_f.
  set (e := if String.eqb (_int d) "0" && (0 <? _exp d) then 0 else _exp d).
  assert (Hzero : ~ (_int d = "0" /\ 0 < e)).
  { intros [Hint He]. unfold e in He. rewrite Hint in He. simpl in He.
    destruct (Z.ltb_spec 0 (_exp d)); lia. }
  destruct (format_parts (_int d) e) as [ip fr] eqn:Hparts.
  destruct (format_parts_fixed (_int d) e Hdigits Hnormal Hzero ip fr Hparts)
    as (Hip & Hne & Hfr & Hfixed).
  eexists. split.
  - unfold Decimal_format_num.
    rewrite (Decimal_of_str_format_number (_sign d) ip fr Hip Hne Hfr).
    reflexivity.
  - simpl.
    destruct (Z.ltb_spec 0 (- Z.of_nat (String.length fr))) as [Hlt|_]; [lia|].
    rewrite andb_false_r, Hfixed. reflexivity.
Qed.

(** The number the two parts of [format_parts] spell, and its exponent. *)
Lemma format_parts_read int_ e :
  normalize_digits int_ = int_ ->
  ~ (int_ = "0" /\ 0 < e) ->
  forall ip fr,
    format_parts int_ e = (ip, fr) ->
    normalize_digits (ip ++ fr) =
      (if 0 <? e then int_ ++ zeros (Z.to_nat e) else int_) /\
    - Z.of_nat (String.length fr) = (if 0 <? e then 0 else e).
Proof.
  intros Hnormal Hzero ip fr Hparts.
  pose proof (normalize_digits_nonempty int_ Hnormal) as Hne.
  unfold format_parts in Hparts.
  destruct (Z.ltb_spec (e + Z.of_nat (String.length int_)) 0) as [Hneg|Hpos].
  - injection Hparts as <- <-.
    destruct (Z.ltb_spec 0 e) as [He|He]; [lia|]. split.
    + change ("0" ++ ?x) with (String "0" x).
      by rewrite normalize_digits_zeros.
    + rewrite length_app_string, length_zeros. lia.
  - destruct (Z.ltb_spec (Z.of_nat (String.length int_))
                (e + Z.of_nat (String.length int_))) as [Hright|Hin].
    + injection Hparts as <- <-.
      destruct (Z.ltb_spec 0 e) as [He|He]; [|lia].
      assert (Hnz : int_ <> "0") by (intros ->; apply Hzero; split; [done|lia]).
      replace (Z.to_nat (e + Z.of_nat (String.length int_) -
                         Z.of_nat (String.length int_))) with (Z.to_nat e) by lia.
      split; [|reflexivity].
      by rewrite app_nil_r_string, (normalize_digits_app _ _ Hnormal Hnz).
    + destruct (Z.ltb_spec 0 e) as [He|He]; [lia|].
      set (n := Z.to_nat (e + Z.of_nat (String.length int_))) in *.
      assert (Hn : (n <= String.length int_)%nat) by lia.
      replace (Z.to_nat (Z.of_nat (String.length int_) -
                         (e + Z.of_nat (String.length int_))))
        with (String.length int_ - n)%nat in Hparts by lia.
      injection Hparts as <- <-.
      split; [|rewrite length_substring_rest by done; lia].
      destruct n as [|n'] eqn:Hn0.
      * rewrite substring_0_0, Nat.sub_0_r, substring_all.
        change (or_zero "" ++ int_) with (String "0" (zeros 0 ++ int_)).
        by rewrite normalize_digits_zeros.
      * rewrite <- Hn0 in *.
        assert (Hip : substring 0 n int_ <> "").
        { intros Hempty. pose proof (length_substring_0 n int_ Hn) as Hl.
          rewrite Hempty in Hl. simpl in Hl. lia. }
        by rewrite (or_zero_nonempty _ Hip), substring_split.
Qed.

(** A price written by [Decimal_serialize] has the characters of positional
    notation only, and the field reads it as the same number, its positive
    exponent written out. *)
Lemma Decimal_serialize_read d :
  wf_Decimal d ->
  every plain_char (Decimal_serialize d) = true /\
  Decimal_format_num (Decimal_serialize d) = Some (positional d).
Proof.
  intros [Hdigits Hnormal]. unfold Decimal_serialize, format_f.
  set (e := if String.eqb (_int d) "0" && (0 <? _exp d) then 0 else _exp d).
  assert (Hzero : ~ (_int d = "0" /\ 0 < e)).
  { intros [Hint He]. unfold e in He. rewrite Hint in He. simpl in He.
    destruct (Z.ltb_spec 0 (_exp d)); lia. }
  destruct (format_parts (_int d) e) as [ip fr] eqn:Hparts.
  destruct (format_parts_fixed (_int d) e Hdigits Hnormal Hzero ip fr Hparts)
    as (Hip & Hne & Hfr & _).
  destruct (format_parts_read (_int d) e Hnormal Hzero ip fr Hparts)
    as [Hread Hexp].
  split; [by apply format_number_plain|].
  unfold Decimal_format_num.
  rewrite (Decimal_of_str_format_number (_sign d) ip fr Hip Hne Hfr).
  rewrite Hread, Hexp. unfold positional, e.
  destruct d as [sg i ex]; cbn [_sign _int _exp].
  destruct (String.eqb_spec i "0") as [->|Hi];
    destruct (Z.ltb_spec 0 ex) as [Hex|Hex]; cbn [andb];
    try reflexivity;
    destruct (Z.ltb_spec 0 ex); first [reflexivity | lia].
Qed.

End Decimals.

(* ===================================================================== *)
(** ** The call log *)
(* ===================================================================== *)

Section Log.
Context {P : ProductsRpc} {O : OrdersRpc}.
Implicit Types w : world P O.

Lemma issued_app w w' (l : list call) :
  calls w' = (calls w ++ l)%list -> issued w w' = l.
Proof.
  intros H. unfold issued. rewrite H. apply drop_app_length.
Qed.

Lemma issued_refl w : issued w w = [].
Proof. apply issued_app. by rewrite app_nil_r. Qed.

Lemma count_app kind (l1 l2 : list call) :
  count kind (l1 ++ l2) = (count kind l1 + count kind l2)%nat.
Proof. unfold count. by rewrite List.filter_app, length_app. Qed.

Lemma count_exists_create (ids : list string) :
  count is_create_order (map Products_exists ids) = 0%nat.
Proof. induction ids as [|i ids IH]; [done|]. apply IH. Qed.

End Log.

(* ===================================================================== *)
(** ** Order creation *)
(* ===================================================================== *)

Section Creation.
Context (P : ProductsRpc) (O : OrdersRpc).
Implicit Types w : world P O.

(** The validation loop over lines whose products all exist: one existence
    check per line, in line order, and nothing else. *)
Lemma check_products_pass (E : string -> bool) items :
  forall w,
    exists_answers P (products w) E ->
    Forall (fun item => E (in_product_id item) = true) items ->
    check_products P O items w =
      (Ok tt, Build_world P O (products w) (orders w)
                (calls w ++ map (Products_exists ∘ in_product_id) items)).
Proof.
  induction items as [|item rest IH]; intros w HE Hall; simpl.
  - destruct w. unfold ret. simpl. by rewrite app_nil_r.
  - inversion Hall as [|? ? Hitem Hrest]; subst.
    unfold bind at 1. unfold products_rpc_exists, on_products.
    rewrite (HE (in_product_id item)), Hitem. simpl.
    rewrite IH; [|exact HE|exact Hrest]. simpl.
    by rewrite <- app_assoc.
Qed.

(** The validation loop stops at the first line whose product is missing. *)
Lemma check_products_stop (E : string -> bool) pre bad post w :
  exists_answers P (products w) E ->
  Forall (fun item => E (in_product_id item) = true) pre ->
  E (in_product_id bad) = false ->
  check_products P O (pre ++ bad :: post) w =
    (Error (ProductNotFound ("Product Id " ++ in_product_id bad)),
     Build_world P O (products w) (orders w)
       (calls w ++ map (Products_exists ∘ in_product_id) (pre ++ [bad]))).
Proof.
  revert w. induction pre as [|item rest IH]; intros w HE Hall Hbad; simpl.
  - unfold bind, products_rpc_exists, on_products.
    rewrite (HE (in_product_id bad)), Hbad. reflexivity.
  - inversion Hall as [|? ? Hitem Hrest]; subst.
    unfold bind at 1. unfold products_rpc_exists, on_products.
    rewrite (HE (in_product_id item)), Hitem. simpl.
    rewrite IH; [|exact HE|exact Hrest|exact Hbad]. simpl.
    by rewrite <- app_assoc.
Qed.

(** A list with an element that fails a test splits at the first one. *)
Lemma first_failing {A} (f : A -> bool) (l : list A) :
  (exists x, x ∈ l /\ f x = false) ->
  exists pre bad post,
    l = (pre ++ bad :: post)%list /\ Forall (fun x => f x = true) pre /\
    f bad = false.
Proof.
  induction l as [|a l IH]; intros (x & Hin & Hx).
  - by apply elem_of_nil in Hin.
  - destruct (f a) eqn:Ha.
    + apply elem_of_cons in Hin as [->|Hin]; [congruence|].
      destruct IH as (pre & bad & post & -> & Hpre & Hbad); [by exists x|].
      exists (a :: pre), bad, post. repeat split; [by constructor|done].
    + exists [], a, l. repeat split; [constructor|done].
Qed.

(** Whatever the products service answers, the validation loop issues
    existence checks only, one per line up to the line where it stops, and
    leaves the orders service alone. *)
Lemma check_products_calls items :
  forall w,
    let (r, w') := check_products P O items w in
    orders w' = orders w /\
    ((r = Ok tt /\
      calls w' = (calls w ++ map (Products_exists ∘ in_product_id) items)%list) \/
     (exists e pre bad post,
        r = Error e /\ items = (pre ++ bad :: post)%list /\
        calls w' =
          (calls w ++ map (Products_exists ∘ in_product_id) (pre ++ [bad]))%list)).
Proof.
  induction items as [|item rest IH]; intros w.
  - simpl. split; [reflexivity|]. left. by rewrite app_nil_r.
  - simpl. unfold bind, products_rpc_exists, on_products.
    destruct (exists_ P (in_product_id item) (products w)) as [[found|e] s].
    + destruct found; simpl.
      * match goal with |- context [check_products P O rest ?w1] =>
          specialize (IH w1); destruct (check_products P O rest w1) as [r w']
        end.
        destruct IH as [Horders Hcalls]. simpl in *.
        split; [exact Horders|].
        destruct Hcalls as [[-> ->]|(e & pre & bad & post & -> & -> & ->)].
        -- left. by rewrite <- app_assoc.
        -- right. exists e, (item :: pre), bad, post.
           by rewrite <- app_assoc.
      * split; [reflexivity|]. right.
        by eexists _, [], item, rest.
    + simpl. split; [reflexivity|]. right. by eexists e, [], item, rest.
Qed.

(** What [CreateOrderSchema] dumps: one line for each loaded line, in the
    same order, with its product id, its quantity and its price in
    positional notation. *)
Lemma CreateOrderSchema_dump_sent order_data :
  Forall2 sent_as order_data (CreateOrderSchema_dump order_data).
Proof.
  induction order_data as [|item rest IH]; [constructor|].
  constructor; [|exact IH].
  split; [reflexivity|]. split; [reflexivity|]. split; [reflexivity|].
  intros Hwf. exact (Decimal_serialize_read (in_price item) Hwf).
Qed.

(** The lines sent for two lines of the product "p1" at 9.99. *)
Example CreateOrderSchema_dump_sample :
  CreateOrderSchema_dump [sample.line_of "p1"; sample.line_of "p1"] =
  [ {| line_product_id := "p1"; line_price := "9.99"; line_quantity := 2 |};
    {| line_product_id := "p1"; line_price := "9.99"; line_quantity := 2 |} ].
Proof. reflexivity. Qed.

(** No commit before validation, whatever the two services do: either every
    line was checked and [create_order] was then called once, with one line
    for each line of the request, in the same order and with the same
    product id, quantity and price, or the request failed at some line after
    the existence checks up to that line, and [create_order] was not
    called. *)
Theorem create_order_calls order_data w :
  let (r, w') := _create_order P O order_data w in
  (exists lines,
     Forall2 sent_as order_data lines /\
     lines = CreateOrderSchema_dump order_data /\
     issued w w' =
       (map (Products_exists ∘ in_product_id) order_data ++
        [Orders_create_order lines])%list /\
     count is_create_order (issued w w') = 1%nat) \/
  (exists e pre bad post,
     r = Error e /\ order_data = (pre ++ bad :: post)%list /\
     issued w w' = map (Products_exists ∘ in_product_id) (pre ++ [bad]) /\
     count is_create_order (issued w w') = 0%nat /\
     orders w' = orders w).
Proof.
  unfold _create_order, bind.
  pose proof (check_products_calls order_data w) as Hloop.
  destruct (check_products P O order_data w) as [r w1].
  destruct Hloop as [Horders [[-> Hcalls]|(e & pre & bad & post & -> & -> & Hcalls)]].
  - unfold orders_rpc_create_order, on_orders.
    destruct (rpc.create_order O _ (orders w1)) as [r s]. left.
    exists (CreateOrderSchema_dump order_data).
    split; [apply CreateOrderSchema_dump_sent|]. split; [reflexivity|].
    match goal with |- issued w ?w2 = ?l /\ _ =>
      assert (Hlog : issued w w2 = l)
        by (apply issued_app; simpl; by rewrite Hcalls, <- app_assoc)
    end.
    rewrite Hlog. split; [reflexivity|].
    rewrite count_app, list_fmap_compose, count_exists_create. reflexivity.
  - right. exists e, pre, bad, post.
    rewrite (issued_app w w1 _ Hcalls).
    repeat split; [|exact Horders].
    rewrite list_fmap_compose. apply count_exists_create.
Qed.

(** C1. An order-creation request with at least one line whose product does
    not exist, according to the existence check of the products service,
    raises [ProductNotFound] with the message "Product Id " followed by the
    product id of the first such line; the only remote calls are the
    existence checks up to that line, so the create operation of the orders
    service is never invoked and the orders service keeps its state. *)
Theorem create_order_missing_product (E : string -> bool) order_data w :
  exists_answers P (products w) E ->
  (exists item, item ∈ order_data /\ E (in_product_id item) = false) ->
  exists pre bad post w',
    order_data = (pre ++ bad :: post)%list /\
    Forall (fun item => E (in_product_id item) = true) pre /\
    E (in_product_id bad) = false /\
    _create_order P O order_data w =
      (Error (ProductNotFound ("Product Id " ++ in_product_id bad)), w') /\
    issued w w' = map (Products_exists ∘ in_product_id) (pre ++ [bad]) /\
    count is_create_order (issued w w') = 0%nat /\
    orders w' = orders w.
Proof.
  intros HE Hmissing.
  destruct (first_failing (E ∘ in_product_id) order_data Hmissing)
    as (pre & bad & post & -> & Hpre & Hbad).
  eexists pre, bad, post, _. split; [reflexivity|].
  split; [exact Hpre|]. split; [exact Hbad|].
  unfold _create_order, bind.
  rewrite (check_products_stop E pre bad post w HE Hpre Hbad).
  split; [reflexivity|].
  assert (Hlog : issued w
            (Build_world P O (products w) (orders w)
               (calls w ++ map (Products_exists ∘ in_product_id) (pre ++ [bad])))
          = map (Products_exists ∘ in_product_id) (pre ++ [bad])).
  { by apply issued_app. }
  rewrite Hlog. split; [reflexivity|]. split; [|reflexivity].
  rewrite list_fmap_compose. apply count_exists_create.
Qed.

(** C2. An order-creation request whose lines all pass the existence check
    makes one existence check per line and then invokes [create_order] of
    the orders service exactly once, with the whole list of lines as
    [CreateOrderSchema] dumps them: one line sent for each line of the
    request, in the same order, with the same product id and quantity, and
    with the price as a string in positional notation that reads as the
    decimal of the request. It returns what that call answers, the id the
    service assigned. *)
Theorem create_order_all_exist (E : string -> bool) order_data w :
  exists_answers P (products w) E ->
  (forall item, item ∈ order_data -> E (in_product_id item) = true) ->
  exists lines w',
    Forall2 sent_as order_data lines /\
    lines = CreateOrderSchema_dump order_data /\
    _create_order P O order_data w =
      (fst (rpc.create_order O lines (orders w)), w') /\
    issued w w' =
      (map (Products_exists ∘ in_product_id) order_data ++
       [Orders_create_order lines])%list /\
    count is_create_order (issued w w') = 1%nat /\
    products w' = products w /\
    orders w' = snd (rpc.create_order O lines (orders w)).
Proof.
  intros HE Hall.
  assert (Hpass : Forall (fun item => E (in_product_id item) = true) order_data).
  { by apply Forall_forall. }
  exists (CreateOrderSchema_dump order_data).
  unfold _create_order, bind.
  rewrite (check_products_pass E order_data w HE Hpass).
  unfold orders_rpc_create_order, on_orders. simpl.
  destruct (rpc.create_order O (CreateOrderSchema_dump order_data) (orders w))
    as [r s] eqn:Hcreate.
  eexists. split; [apply CreateOrderSchema_dump_sent|].
  split; [reflexivity|]. split; [reflexivity|]. simpl.
  match goal with |- issued w ?w1 = ?l /\ _ =>
    assert (Hlog : issued w w1 = l) by (apply issued_app; simpl; by rewrite <- app_assoc)
  end.
  rewrite Hlog. split; [reflexivity|]. split; [|done].
  rewrite count_app, list_fmap_compose, count_exists_create. reflexivity.
Qed.

(** C7. An order-creation request whose [order_details] is the empty list
    passes validation; no existence check is made and [create_order] of the
    orders service is invoked exactly once, with the empty list. When that
    call answers with an id the request succeeds with status CREATED and
    that id. *)
Theorem create_order_empty request w id_ s :
  get_data request = Ok (JObject (<["order_details" := JList []]> ∅)) ->
  rpc.create_order O [] (orders w) = (Ok id_, s) ->
  exists w',
    service.create_order P O request w =
      (Ok {| response := json_id (JInt id_);
             status := CREATED;
             mimetype := "application/json" |}, w') /\
    issued w w' = [Orders_create_order []] /\
    count is_exists (issued w w') = 0%nat /\
    count is_create_order (issued w w') = 1%nat /\
    products w' = products w /\
    orders w' = s.
Proof.
  intros Hbody Hcreate.
  exists (Build_world P O (products w) s (calls w ++ [Orders_create_order []])).
  split.
  { unfold service.create_order, bind, lift, loads. rewrite Hbody.
    unfold CreateOrderSchema_load. rewrite lookup_insert_eq. simpl.
    unfold _create_order, bind, ret. simpl.
    unfold orders_rpc_create_order, on_orders. simpl.
    rewrite Hcreate. destruct w; reflexivity. }
  match goal with |- issued w ?w1 = ?l /\ _ =>
    assert (Hlog : issued w w1 = l) by (by apply issued_app)
  end.
  rewrite Hlog. done.
Qed.

End Creation.

(* ===================================================================== *)
(** ** Order retrieval *)
(* ===================================================================== *)

Section Retrieval.
Context (P : ProductsRpc) (O : OrdersRpc) (PRODUCT_IMAGE_ROOT : string).
Implicit Types w : world P O.

Lemma enhanced_intro image_root product item :
  enhanced image_root product item
    {| od_id := od_id item;
       od_quantity := od_quantity item;
       od_product_id := od_product_id item;
       od_price := od_price item;
       od_product := Some product;
       od_image := Some (image_root ++ "/" ++ od_product_id item ++ ".jpg") |}.
Proof. by repeat split. Qed.

(** The enrichment loop over lines whose products are all found: one [get]
    per line, in line order, and every line carries what its call returned. *)
Lemma enhance_all_found (G : string -> outcome Product) image_root items :
  forall w,
    get_answers P (products w) G ->
    Forall (fun item => returns (G (od_product_id item)) = true) items ->
    exists items',
      enhance_all P O image_root items w =
        (Ok items', Build_world P O (products w) (orders w)
                      (calls w ++ map (Products_get ∘ od_product_id) items)) /\
      Forall2 (fun item item' =>
                 exists product, G (od_product_id item) = Ok product /\
                                 enhanced image_root product item item')
              items items'.
Proof.
  induction items as [|item rest IH]; intros w HG Hall; simpl.
  - exists []. split; [|constructor].
    destruct w. unfold ret. simpl. by rewrite app_nil_r.
  - inversion Hall as [|? ? Hitem Hrest]; subst.
    destruct (G (od_product_id item)) as [product|e] eqn:Hget; [|done].
    unfold bind at 1. unfold enhance, bind, products_rpc_get, on_products.
    rewrite (HG (od_product_id item)), Hget. unfold ret at 1.
    match goal with |- context [enhance_all P O image_root rest ?w1] =>
      destruct (IH w1 HG Hrest) as (rest' & Hrun & Hrel)
    end.
    unfold bind. rewrite Hrun. eexists. split.
    + unfold ret. simpl. by rewrite <- app_assoc.
    + constructor; [|exact Hrel]. exists product. split; [exact Hget|].
      apply enhanced_intro.
Qed.

(** The enrichment loop stops at the first line whose product lookup fails,
    with the exception of that lookup. *)
Lemma enhance_all_stop (G : string -> outcome Product) image_root
    pre bad post e w :
  get_answers P (products w) G ->
  Forall (fun item => returns (G (od_product_id item)) = true) pre ->
  G (od_product_id bad) = Error e ->
  enhance_all P O image_root (pre ++ bad :: post) w =
    (Error e, Build_world P O (products w) (orders w)
                (calls w ++ map (Products_get ∘ od_product_id) (pre ++ [bad]))).
Proof.
  revert w. induction pre as [|item rest IH]; intros w HG Hall Hbad; simpl.
  - unfold bind, enhance, bind, products_rpc_get, on_products.
    by rewrite (HG (od_product_id bad)), Hbad.
  - inversion Hall as [|? ? Hitem Hrest]; subst.
    destruct (G (od_product_id item)) as [product|e'] eqn:Hget; [|done].
    unfold bind at 1. unfold enhance, bind, products_rpc_get, on_products.
    rewrite (HG (od_product_id item)), Hget. unfold ret at 1.
    unfold bind. rewrite IH; [|exact HG|exact Hrest|exact Hbad]. simpl.
    by rewrite <- app_assoc.
Qed.

(** C3. When the order is found and the product lookup of every line
    succeeds, [_get_order] returns the order with, on every line, [product]
    equal to what [get] of the products service returns for the line's
    product id and [image] equal to the configured image root, then "/",
    then the product id, then ".jpg"; the other fields are as fetched. One
    [get] is issued per line, in line order. *)
Theorem get_order_enriched (G : string -> outcome Product) order_id w order s :
  rpc.get_order O order_id (orders w) = (Ok order, s) ->
  get_answers P (products w) G ->
  (forall item, item ∈ order_details order ->
                returns (G (od_product_id item)) = true) ->
  exists order' w',
    _get_order P O PRODUCT_IMAGE_ROOT order_id w = (Ok order', w') /\
    schemas.order_id order' = schemas.order_id order /\
    Forall2 (fun item item' =>
               exists product, G (od_product_id item) = Ok product /\
                               enhanced PRODUCT_IMAGE_ROOT product item item')
            (order_details order) (order_details order') /\
    issued w w' =
      Orders_get_order order_id ::
      map (Products_get ∘ od_product_id) (order_details order).
Proof.
  intros Hfetch HG Hall. apply Forall_forall in Hall.
  unfold _get_order. unfold bind at 1.
  unfold orders_rpc_get_order, on_orders. rewrite Hfetch.
  match goal with |- context [bind (enhance_all _ _ _ _) _ ?w1] =>
    destruct (enhance_all_found G PRODUCT_IMAGE_ROOT (order_details order) w1 HG Hall)
      as (items' & Hrun & Hrel)
  end.
  unfold bind. rewrite Hrun. unfold ret. eexists _, _.
  split; [reflexivity|]. simpl. split; [reflexivity|]. split; [exact Hrel|].
  apply issued_app. simpl. by rewrite <- app_assoc.
Qed.

(** C4. When the order is found and the product lookup of some line fails,
    [_get_order] raises the exception of the first failing lookup, and so
    does the handler [get_order]: no order, enriched in part or in whole, is
    returned. *)
Theorem get_order_product_lookup_fails (G : string -> outcome Product)
    request order_id w order s :
  rpc.get_order O order_id (orders w) = (Ok order, s) ->
  get_answers P (products w) G ->
  (exists item, item ∈ order_details order /\
                returns (G (od_product_id item)) = false) ->
  exists bad e w',
    bad ∈ order_details order /\
    G (od_product_id bad) = Error e /\
    _get_order P O PRODUCT_IMAGE_ROOT order_id w = (Error e, w') /\
    service.get_order P O PRODUCT_IMAGE_ROOT request order_id w = (Error e, w').
Proof.
  intros Hfetch HG Hfail.
  destruct (first_failing (fun item => returns (G (od_product_id item)))
              (order_details order) Hfail)
    as (pre & bad & post & Hsplit & Hpre & Hbad).
  destruct (G (od_product_id bad)) as [product|e] eqn:Hget; [done|].
  assert (Hrun : exists w',
    _get_order P O PRODUCT_IMAGE_ROOT order_id w = (Error e, w')).
  { unfold _get_order. unfold bind at 1.
    unfold orders_rpc_get_order, on_orders. rewrite Hfetch, Hsplit.
    unfold bind. rewrite (enhance_all_stop G _ pre bad post e); [|done..].
    by eexists. }
  destruct Hrun as (w' & Hrun).
  exists bad, e, w'. split.
  { rewrite Hsplit. apply elem_of_app. right. apply elem_of_cons. by left. }
  split; [exact Hget|]. split; [exact Hrun|].
  unfold service.get_order, bind. by rewrite Hrun.
Qed.

End Retrieval.

(* ===================================================================== *)
(** ** Response shaping and listing *)
(* ===================================================================== *)

Section Shaping.
Context (P : ProductsRpc) (O : OrdersRpc) (PRODUCT_IMAGE_ROOT : string).
Implicit Types w : world P O.

Lemma wrap_with_count_one data : wrap_with_count data false = data.
Proof. reflexivity. Qed.

(** A single order is dumped as the object of its fields, hook or not. *)
Lemma GetOrderSchema_dump_data order :
  data (GetOrderSchema_dump order) =
  JObject (<["id" := JInt (order_id order)]>
          (<["order_details" :=
               JList (map (data ∘ OrderDetail_dump) (order_details order))]> ∅)).
Proof.
  unfold GetOrderSchema_dump, dump_with_hook. simpl.
  rewrite list_fmap_compose.
  by destruct (existsb errors (map OrderDetail_dump (order_details order))).
Qed.

Lemma GetOrderSchema_marshal_clean order :
  decimal_prices order -> errors (GetOrderSchema_marshal order) = false.
Proof.
  unfold decimal_prices. simpl.
  induction (order_details order) as [|item rest IH]; intros H; [done|].
  inversion H as [|? ? Hitem Hrest]; subst. simpl.
  rewrite bool_decide_eq_true_2 by done. simpl. by apply IH.
Qed.

(** A list of orders is dumped as the count and data record. *)
Lemma GetOrderSchema_dump_many_data orders :
  Forall decimal_prices orders ->
  data (GetOrderSchema_dump_many orders) =
  JObject (<["count" := JInt (Z.of_nat (List.length orders))]>
          (<["data" := JList (map (data ∘ GetOrderSchema_marshal) orders)]> ∅)).
Proof.
  intros Hall. unfold GetOrderSchema_dump_many, dump_with_hook. simpl.
  assert (Hclean : existsb errors (map GetOrderSchema_marshal orders) = false).
  { induction Hall as [|o os Ho _ IH]; [done|].
    change (errors (GetOrderSchema_marshal o)
            || existsb errors (map GetOrderSchema_marshal os) = false).
    by rewrite (GetOrderSchema_marshal_clean o Ho). }
  rewrite Hclean. unfold wrap_with_count, len.
  by rewrite !length_map, list_fmap_compose.
Qed.

(** A line whose price reads as a decimal is dumped without error, the price
    written by [format(d, 'f')]. *)
Lemma OrderDetail_dump_price item d :
  Decimal_format_num (od_price item) = Some d ->
  errors (OrderDetail_dump item) = false /\
  field (data (OrderDetail_dump item)) "price" = Some (JStr (Decimal_serialize d)).
Proof.
  intros Hprice. unfold OrderDetail_dump. rewrite Hprice. simpl.
  split; [reflexivity|].
  rewrite !lookup_insert_ne by done.
  destruct (od_image item); simpl; [rewrite lookup_insert_ne by done|];
    by rewrite lookup_insert_eq.
Qed.

(** The price string the gateway sends when an order is created is the price
    string it returns when the order is retrieved: the [Decimal] fields of
    the two schemas keep every digit. *)
Theorem price_exact_through_schemas line stored :
  wf_Decimal (in_price line) ->
  od_price stored = line_price (CreateOrderDetailSchema_dump line) ->
  errors (OrderDetail_dump stored) = false /\
  field (data (OrderDetail_dump stored)) "price" = Some (JStr (od_price stored)).
Proof.
  intros Hwf Hsent.
  destruct (Decimal_serialize_reread (in_price line) Hwf) as (d' & Hread & Hsame).
  simpl in Hsent. rewrite <- Hsent in Hread.
  destruct (OrderDetail_dump_price stored d' Hread) as [Hclean Hprice].
  split; [exact Hclean|]. by rewrite Hprice, Hsame, Hsent.
Qed.

Lemma Decimal_deserialize_wf v d : Decimal_deserialize v = Some d -> wf_Decimal d.
Proof. destruct v; simpl; try discriminate; apply Decimal_format_num_wf. Qed.

Lemma CreateOrderDetailSchema_load_wf item line :
  CreateOrderDetailSchema_load item = Some line -> wf_Decimal (in_price line).
Proof.
  unfold CreateOrderDetailSchema_load, required. intros H.
  repeat (case_match; try discriminate); simplify_eq; simpl;
    by eapply Decimal_deserialize_wf.
Qed.

Lemma load_many_Forall {A} (load : json -> option A) (Q : A -> Prop) l :
  (forall x a, load x = Some a -> Q a) ->
  forall r, load_many load l = Some r -> Forall Q r.
Proof.
  intros Hload. induction l as [|x l IH]; simpl; intros r.
  - intros [= <-]. constructor.
  - destruct (load x) as [a|] eqn:Hx; [|discriminate].
    destruct (load_many load l) as [r'|]; [|discriminate].
    intros [= <-]. constructor; [by eapply Hload|by apply IH].
Qed.

(** Every price [CreateOrderSchema] loads is a well-formed [Decimal]. *)
Lemma CreateOrderSchema_load_wf body order_data :
  CreateOrderSchema_load body = Ok order_data ->
  Forall (fun line => wf_Decimal (in_price line)) order_data.
Proof.
  unfold CreateOrderSchema_load. intros H.
  repeat (case_match; try discriminate); simplify_eq.
  eapply load_many_Forall; [|eassumption].
  apply CreateOrderDetailSchema_load_wf.
Qed.

(** What [GetOrderSchema] writes for an order: an object with the id of the
    order and one entry for each of its lines, with the id of the line. *)
Lemma GetOrderSchema_marshal_listed order :
  listed_as order (data (GetOrderSchema_marshal order)).
Proof.
  split; [apply lookup_insert_eq|].
  exists (map data (map OrderDetail_dump (order_details order))). split.
  - simpl. by rewrite lookup_insert_ne, lookup_insert_eq.
  - induction (order_details order) as [|line rest IH]; constructor; [|exact IH].
    apply lookup_insert_eq.
Qed.

(** C5. Whatever the number of orders the orders service lists (none, one
    or several, their prices decimals written as strings), the response of
    [list_orders] is a record of [count] and [data], where [data] is the
    list of the dumped orders, one per listed order and in the same order,
    each with the id of its order and one entry per line, and [count] is
    the number of orders listed, which is the number of elements of
    [data]. *)
Theorem list_orders_wrapped request w page per_page listed s :
  int_arg (args request) "p" 1 = Ok page ->
  int_arg (args request) "per_page" 10 = Ok per_page ->
  rpc.list_orders O page per_page (orders w) = (Ok listed, s) ->
  Forall decimal_prices listed ->
  exists items w',
    service.list_orders P O request w =
      (Ok (json_response OK
             (JObject (<["count" := JInt (Z.of_nat (List.length listed))]>
                      (<["data" := JList items]> ∅)))), w') /\
    items = map (data ∘ GetOrderSchema_marshal) listed /\
    Forall2 listed_as listed items /\
    List.length items = List.length listed.
Proof.
  intros Hp Hpp Hlist Hall.
  unfold service.list_orders, bind, lift. rewrite Hp, Hpp.
  unfold orders_rpc_list_orders, on_orders. rewrite Hlist. unfold ret.
  rewrite (GetOrderSchema_dump_many_data listed Hall).
  eexists _, _. split; [reflexivity|]. split; [reflexivity|].
  split; [|by rewrite length_map].
  clear. induction listed as [|order rest IH]; constructor; [|exact IH].
  apply GetOrderSchema_marshal_listed.
Qed.

(** C10. The response of a single-order retrieval is the enriched order
    itself, an object whose keys are [id] and [order_details]: the hook
    leaves a document alone unless [many] is set, and the response has no
    [count] and no [data] key. *)
Theorem get_order_not_wrapped request order_id w resp w' :
  service.get_order P O PRODUCT_IMAGE_ROOT request order_id w = (Ok resp, w') ->
  (forall data, wrap_with_count data false = data) /\
  exists order fields,
    _get_order P O PRODUCT_IMAGE_ROOT order_id w = (Ok order, w') /\
    resp = json_response OK (JObject fields) /\
    fields !! "id" = Some (JInt (schemas.order_id order)) /\
    fields !! "order_details" =
      Some (JList (map (data ∘ OrderDetail_dump) (order_details order))) /\
    dom fields = {["id"; "order_details"]} /\
    fields !! "count" = None /\
    fields !! "data" = None.
Proof.
  intros Hrun. split; [exact wrap_with_count_one|].
  unfold service.get_order, bind in Hrun.
  destruct (_get_order P O PRODUCT_IMAGE_ROOT order_id w) as [[order|e] w1];
    [|discriminate].
  unfold ret in Hrun. rewrite GetOrderSchema_dump_data in Hrun.
  injection Hrun as <- <-.
  eexists order, _. split; [reflexivity|]. split; [reflexivity|].
  split; [by rewrite lookup_insert_eq|].
  split; [by rewrite lookup_insert_ne, lookup_insert_eq|].
  split; [rewrite !dom_insert_L; set_solver|].
  split; by rewrite !lookup_insert_ne, lookup_empty.
Qed.

(** C9, as the code has it. The page and the page size are read from the
    query parameters [p] and [per_page] with [int]; the defaults 1 and 10
    stand in for a parameter that is absent, and the two values are passed
    as they are to [list_orders] of the orders service, the only remote
    call. A parameter that is present and is not an integer literal makes
    the request fail with [ValueError] before any remote call. The values
    of the parameters are ASCII text, where [int_of_str] is [int]. *)
Theorem list_orders_pagination request w :
  let p := args_get (args request) "p" in
  let per := args_get (args request) "per_page" in
  let reads (arg : option string) (default value : Z) :=
    arg = None /\ value = default \/
    exists s, arg = Some s /\ int_literal s /\ int_of_str s = Some value in
  let malformed (arg : option string) :=
    exists s, arg = Some s /\ is_ascii s = true /\ int_of_str s = None in
  (forall page per_page,
     reads p 1 page -> reads per 10 per_page ->
     exists w',
       service.list_orders P O request w =
         (respond (fst (rpc.list_orders O page per_page (orders w)))
            (fun listed =>
               json_response OK (data (GetOrderSchema_dump_many listed))), w') /\
       issued w w' = [Orders_list_orders page per_page]) /\
  (malformed p \/ (exists page, reads p 1 page) /\ malformed per ->
   service.list_orders P O request w = (Error ValueError, w)).
Proof.
  intros p per reads malformed.
  assert (Hreads : forall key default value,
            reads (args_get (args request) key) default value ->
            int_arg (args request) key default = Ok value).
  { intros key default value. unfold int_arg.
    intros [[-> ->]|(s & -> & _ & ->)]; reflexivity. }
  assert (Hmalformed : forall key default,
            malformed (args_get (args request) key) ->
            int_arg (args request) key default = Error ValueError).
  { intros key default (s & Hs & _ & Hbad). unfold int_arg.
    by rewrite Hs, Hbad. }
  split.
  - intros page per_page Hp Hper.
    unfold service.list_orders, bind, lift.
    rewrite (Hreads "p" 1 page Hp), (Hreads "per_page" 10 per_page Hper).
    unfold orders_rpc_list_orders, on_orders.
    destruct (rpc.list_orders O page per_page (orders w)) as [[listed|e] s'];
      eexists; (split; [reflexivity|by apply issued_app]).
  - intros [Hbad|[[page Hp] Hbad]]; unfold service.list_orders, bind, lift.
    + by rewrite (Hmalformed "p" 1 Hbad).
    + by rewrite (Hreads "p" 1 page Hp), (Hmalformed "per_page" 10 Hbad).
Qed.

End Shaping.

(* ===================================================================== *)
(** ** The gateway over the in-memory services *)
(* ===================================================================== *)

Section InMemory.
Context (PRODUCT_IMAGE_ROOT : string).

Lemma UpdateProductSchema_load_title_New :
  UpdateProductSchema_load title_New = Ok only_title_New.
Proof. vm_compute. reflexivity. Qed.

(** Whatever the products service is, the gateway forwards the loaded update,
    the title and three [None], in one [update] call. *)
Lemma update_product_forwards P O request product_id (w : world P O) :
  get_data request = Ok title_New ->
  update_product P O request product_id w =
    (respond (fst (update P product_id only_title_New (products w)))
       (fun _ => json_response OK (json_id (JStr product_id))),
     Build_world P O
       (snd (update P product_id only_title_New (products w))) (orders w)
       (calls w ++ [Products_update product_id only_title_New])).
Proof.
  intros Hbody. unfold update_product, bind, lift, loads.
  rewrite Hbody, UpdateProductSchema_load_title_New.
  unfold products_rpc_update, on_products.
  by destruct (update P product_id only_title_New (products w)) as [[[]|e] s].
Qed.

(** C8. A product update whose body is only [{"title": "New"}] is forwarded
    as one [update] call that carries the title and [None] for the three
    other fields. Over the products service as the spec describes it, the
    stored product gets the new title and keeps its id, maximum speed, stock
    and passenger capacity, and the other products are untouched; when no
    product has the id the request fails with [ProductNotFound] and nothing
    changes. *)
Theorem update_product_title_only O request product_id
    (w : world memory.Products O) :
  get_data request = Ok title_New ->
  let stored : gmap string Product := products w in
  (forall product, stored !! product_id = Some product ->
     exists w' product',
       update_product memory.Products O request product_id w =
         (Ok (json_response OK (json_id (JStr product_id))), w') /\
       issued w w' = [Products_update product_id only_title_New] /\
       (products w' : gmap string Product) = <[product_id := product']> stored /\
       prod_title product' = "New" /\
       prod_id product' = prod_id product /\
       prod_maximum_speed product' = prod_maximum_speed product /\
       prod_in_stock product' = prod_in_stock product /\
       prod_passenger_capacity product' = prod_passenger_capacity product) /\
  (stored !! product_id = None ->
     exists msg w',
       update_product memory.Products O request product_id w =
         (Error (ProductNotFound msg), w') /\
       issued w w' = [Products_update product_id only_title_New] /\
       (products w' : gmap string Product) = stored).
Proof.
  intros Hbody stored.
  pose proof (update_product_forwards memory.Products O request product_id w Hbody)
    as Hrun.
  simpl in Hrun. unfold memory.products_update in Hrun. fold stored in Hrun.
  split.
  - intros product Hstored. rewrite Hstored in Hrun. simpl in Hrun.
    eexists _, _. split; [exact Hrun|].
    split; [by apply issued_app|]. split; [reflexivity|]. done.
  - intros Hnone. rewrite Hnone in Hrun. simpl in Hrun.
    eexists _, _. split; [exact Hrun|].
    split; [by apply issued_app|]. reflexivity.
Qed.




(** The validation loop does not touch the orders service. *)
Lemma check_products_orders P O items :
  forall w : world P O, orders (snd (check_products P O items w)) = orders w.
Proof.
  induction items as [|item rest IH]; intros w; [reflexivity|].
  simpl. unfold bind, products_rpc_exists, on_products.
  destruct (exists_ P (in_product_id item) (products w)) as [[found|e] s];
    [|reflexivity].
  destruct found; simpl; [|reflexivity]. by rewrite IH.
Qed.

Lemma store_lines_decimal_prices order_data :
  Forall (fun line => wf_Decimal (in_price line)) order_data ->
  forall first,
    Forall (fun item => is_Some (Decimal_format_num (od_price item)))
      (memory.store_lines first (CreateOrderSchema_dump order_data)).
Proof.
  induction 1 as [|line rest Hline _ IH]; intros first; simpl; [constructor|].
  constructor; [|apply IH]. simpl.
  destruct (Decimal_serialize_reread (in_price line) Hline) as (d' & -> & _).
  by eexists.
Qed.

(** Orders created through the gateway keep the orders service in a state
    where every price is a decimal written as a string. *)
Theorem created_orders_have_decimal_prices request
    (w w' : world memory.Products memory.Orders) resp :
  Forall decimal_prices (orders w : list Order) ->
  service.create_order memory.Products memory.Orders request w = (Ok resp, w') ->
  Forall decimal_prices (orders w' : list Order).
Proof.
  intros Hinv. unfold service.create_order. unfold bind at 1. unfold lift.
  destruct (loads CreateOrderSchema_load request) as [order_data|e] eqn:Hload;
    [|discriminate].
  assert (Hwf : Forall (fun line => wf_Decimal (in_price line)) order_data).
  { unfold loads in Hload. destruct (get_data request); [|discriminate].
    by apply CreateOrderSchema_load_wf in Hload. }
  unfold bind, _create_order, bind.
  pose proof (check_products_orders memory.Products memory.Orders order_data w)
    as Hsame.
  destruct (check_products memory.Products memory.Orders order_data w)
    as [[[]|e] w1]; [|discriminate].
  simpl in Hsame. unfold orders_rpc_create_order, on_orders. simpl.
  unfold ret. intros [= _ <-]. simpl. rewrite Hsame.
  apply Forall_app. split; [exact Hinv|].
  constructor; [|constructor]. unfold decimal_prices. simpl.
  by apply store_lines_decimal_prices.
Qed.

End InMemory.

(* ===================================================================== *)
(** ** The theorems at work on the sample data *)
(* ===================================================================== *)

Lemma sample_exists_answers :
  exists_answers memory.Products sample.catalogue sample.in_catalogue.
Proof. intros product_id. reflexivity. Defined.

Lemma sample_get_answers :
  get_answers memory.Products sample.catalogue sample.fetch.
Proof.
  intros product_id. unfold sample.fetch. simpl. unfold memory.products_get.
  destruct (sample.catalogue !! product_id); reflexivity.
Defined.

Lemma create_order_missing_product_witness :
  let order_data :=
    [sample.line_of "p1"; sample.line_of "ghost"; sample.line_of "p1"] in
  exists_answers memory.Products sample.catalogue sample.in_catalogue /\
  (exists item, item ∈ order_data /\
                sample.in_catalogue (in_product_id item) = false) /\
  exists pre bad post w',
    order_data = (pre ++ bad :: post)%list /\
    Forall (fun item => sample.in_catalogue (in_product_id item) = true) pre /\
    sample.in_catalogue (in_product_id bad) = false /\
    _create_order memory.Products memory.Orders order_data sample.world0 =
      (Error (ProductNotFound ("Product Id " ++ in_product_id bad)), w') /\
    issued sample.world0 w' =
      map (Products_exists ∘ in_product_id) (pre ++ [bad]) /\
    count is_create_order (issued sample.world0 w') = 0%nat /\
    orders w' = orders sample.world0.
Proof.
  intros order_data.
  assert (Hmissing : exists item, item ∈ order_data /\
                       sample.in_catalogue (in_product_id item) = false).
  { exists (sample.line_of "ghost"). split; [|vm_compute; reflexivity].
    apply list_elem_of_further, list_elem_of_here. }
  split; [exact sample_exists_answers|]. split; [exact Hmissing|].
  exact (create_order_missing_product memory.Products memory.Orders
           sample.in_catalogue order_data sample.world0
           sample_exists_answers Hmissing).
Defined.

Lemma create_order_all_exist_witness :
  let order_data := [sample.line_of "p1"; sample.line_of "p1"] in
  exists_answers memory.Products sample.catalogue sample.in_catalogue /\
  (forall item, item ∈ order_data ->
                sample.in_catalogue (in_product_id item) = true) /\
  exists lines w',
    Forall2 sent_as order_data lines /\
    lines = CreateOrderSchema_dump order_data /\
    _create_order memory.Products memory.Orders order_data sample.world0 =
      (fst (rpc.create_order memory.Orders lines (orders sample.world0)), w') /\
    issued sample.world0 w' =
      (map (Products_exists ∘ in_product_id) order_data ++
       [Orders_create_order lines])%list /\
    count is_create_order (issued sample.world0 w') = 1%nat /\
    products w' = products sample.world0 /\
    orders w' = snd (rpc.create_order memory.Orders lines (orders sample.world0)).
Proof.
  intros order_data.
  assert (Hall : forall item, item ∈ order_data ->
                   sample.in_catalogue (in_product_id item) = true).
  { intros item Hin. apply list_elem_of_In in Hin.
    destruct Hin as [<-|[<-|[]]]; vm_compute; reflexivity. }
  split; [exact sample_exists_answers|]. split; [exact Hall|].
  exact (create_order_all_exist memory.Products memory.Orders
           sample.in_catalogue order_data sample.world0
           sample_exists_answers Hall).
Defined.

Lemma create_order_empty_witness :
  get_data sample.post_no_lines =
    Ok (JObject (<["order_details" := JList []]> ∅)) /\
  rpc.create_order memory.Orders [] (orders sample.world0) =
    (Ok 3, [sample.order_1; sample.order_2;
            {| order_id := 3; order_details := [] |}]) /\
  exists w',
    service.create_order memory.Products memory.Orders sample.post_no_lines
        sample.world0 =
      (Ok {| response := json_id (JInt 3);
             status := CREATED;
             mimetype := "application/json" |}, w') /\
    issued sample.world0 w' = [Orders_create_order []] /\
    count is_exists (issued sample.world0 w') = 0%nat /\
    count is_create_order (issued sample.world0 w') = 1%nat /\
    products w' = products sample.world0 /\
    orders w' = [sample.order_1; sample.order_2;
                 {| order_id := 3; order_details := [] |}].
Proof.
  split; [reflexivity|]. split; [reflexivity|].
  apply (create_order_empty memory.Products memory.Orders sample.post_no_lines
           sample.world0 3); reflexivity.
Defined.

Lemma get_order_enriched_witness :
  rpc.get_order memory.Orders 1 (orders sample.world0) =
    (Ok sample.order_1, orders sample.world0) /\
  get_answers memory.Products sample.catalogue sample.fetch /\
  (forall item, item ∈ order_details sample.order_1 ->
                returns (sample.fetch (od_product_id item)) = true) /\
  exists order' w',
    _get_order memory.Products memory.Orders "http://img" 1 sample.world0 =
      (Ok order', w') /\
    order_id order' = order_id sample.order_1 /\
    Forall2 (fun item item' =>
               exists product,
                 sample.fetch (od_product_id item) = Ok product /\
                 enhanced "http://img" product item item')
            (order_details sample.order_1) (order_details order') /\
    issued sample.world0 w' =
      Orders_get_order 1 ::
      map (Products_get ∘ od_product_id) (order_details sample.order_1).
Proof.
  assert (Hall : forall item, item ∈ order_details sample.order_1 ->
                   returns (sample.fetch (od_product_id item)) = true).
  { intros item Hin. apply list_elem_of_In in Hin.
    destruct Hin as [<-|[]]; vm_compute; reflexivity. }
  split; [reflexivity|]. split; [exact sample_get_answers|].
  split; [exact Hall|].
  exact (get_order_enriched memory.Products memory.Orders "http://img"
           sample.fetch 1 sample.world0 sample.order_1 (orders sample.world0)
           eq_refl sample_get_answers Hall).
Defined.

Lemma get_order_product_lookup_fails_witness :
  rpc.get_order memory.Orders 2 (orders sample.world0) =
    (Ok sample.order_2, orders sample.world0) /\
  get_answers memory.Products sample.catalogue sample.fetch /\
  (exists item, item ∈ order_details sample.order_2 /\
                returns (sample.fetch (od_product_id item)) = false) /\
  exists bad e w',
    bad ∈ order_details sample.order_2 /\
    sample.fetch (od_product_id bad) = Error e /\
    _get_order memory.Products memory.Orders "http://img" 2 sample.world0 =
      (Error e, w') /\
    service.get_order memory.Products memory.Orders "http://img"
        sample.get_request 2 sample.world0 = (Error e, w').
Proof.
  assert (Hfail : exists item, item ∈ order_details sample.order_2 /\
                    returns (sample.fetch (od_product_id item)) = false).
  { exists (sample.stored_line 3 "ghost"). split; [|vm_compute; reflexivity].
    apply list_elem_of_further, list_elem_of_here. }
  split; [reflexivity|]. split; [exact sample_get_answers|].
  split; [exact Hfail|].
  exact (get_order_product_lookup_fails memory.Products memory.Orders
           "http://img" sample.fetch sample.get_request 2 sample.world0
           sample.order_2 (orders sample.world0)
           eq_refl sample_get_answers Hfail).
Defined.

Lemma sample_decimal_prices :
  Forall decimal_prices [sample.order_1; sample.order_2].
Proof.
  repeat constructor; exists {| _sign := false; _int := "999"; _exp := -2 |};
    vm_compute; reflexivity.
Defined.

Lemma list_orders_wrapped_witness :
  int_arg (args sample.get_request) "p" 1 = Ok 1 /\
  int_arg (args sample.get_request) "per_page" 10 = Ok 10 /\
  rpc.list_orders memory.Orders 1 10 (orders sample.world0) =
    (Ok [sample.order_1; sample.order_2], orders sample.world0) /\
  Forall decimal_prices [sample.order_1; sample.order_2] /\
  exists items w',
    service.list_orders memory.Products memory.Orders sample.get_request
        sample.world0 =
      (Ok (json_response OK
             (JObject (<["count" := JInt 2]>
                      (<["data" := JList items]> ∅)))), w') /\
    items = map (data ∘ GetOrderSchema_marshal) [sample.order_1; sample.order_2] /\
    Forall2 listed_as [sample.order_1; sample.order_2] items /\
    List.length items = 2%nat.
Proof.
  split; [reflexivity|]. split; [reflexivity|]. split; [reflexivity|].
  split; [exact sample_decimal_prices|].
  exact (list_orders_wrapped memory.Products memory.Orders sample.get_request
           sample.world0 1 10 [sample.order_1; sample.order_2]
           (orders sample.world0) eq_refl eq_refl eq_refl sample_decimal_prices).
Defined.

(** The listing of no order, of one and of two. *)
Example list_of_none :
  data (GetOrderSchema_dump_many []) =
  JObject (<["count" := JInt 0]> (<["data" := JList []]> ∅)).
Proof. reflexivity. Qed.

Example list_of_one :
  data (GetOrderSchema_dump_many [sample.order_1]) =
  JObject (<["count" := JInt 1]>
          (<["data" := JList [data (GetOrderSchema_marshal sample.order_1)]]> ∅)).
Proof. reflexivity. Qed.

Example list_of_two :
  data (GetOrderSchema_dump_many [sample.order_1; sample.order_2]) =
  JObject (<["count" := JInt 2]>
          (<["data" := JList [data (GetOrderSchema_marshal sample.order_1);
                              data (GetOrderSchema_marshal sample.order_2)]]> ∅)).
Proof. reflexivity. Qed.

Lemma get_order_not_wrapped_witness :
  exists resp w',
    service.get_order memory.Products memory.Orders "http://img"
        sample.get_request 1 sample.world0 = (Ok resp, w') /\
    (forall data, wrap_with_count data false = data) /\
    exists order fields,
      _get_order memory.Products memory.Orders "http://img" 1 sample.world0 =
        (Ok order, w') /\
      resp = json_response OK (JObject fields) /\
      fields !! "id" = Some (JInt (order_id order)) /\
      fields !! "order_details" =
        Some (JList (map (data ∘ OrderDetail_dump) (order_details order))) /\
      dom fields = {["id"; "order_details"]} /\
      fields !! "count" = None /\
      fields !! "data" = None.
Proof.
  eexists _, _. split; [reflexivity|].
  apply (get_order_not_wrapped memory.Products memory.Orders "http://img"
           sample.get_request 1 sample.world0).
  reflexivity.
Defined.

Lemma update_product_title_only_witness :
  get_data sample.patch_title_New = Ok title_New /\
  sample.catalogue !! "p1" = Some sample.odyssey /\
  sample.catalogue !! "ghost" = None /\
  (exists w' product',
     update_product memory.Products memory.Orders sample.patch_title_New "p1"
         sample.world0 =
       (Ok (json_response OK (json_id (JStr "p1"))), w') /\
     issued sample.world0 w' = [Products_update "p1" only_title_New] /\
     (products w' : gmap string Product) = <["p1" := product']> sample.catalogue /\
     prod_title product' = "New" /\
     prod_id product' = "p1" /\
     prod_maximum_speed product' = 5 /\
     prod_in_stock product' = 10 /\
     prod_passenger_capacity product' = 101) /\
  (exists msg w',
     update_product memory.Products memory.Orders sample.patch_title_New
         "ghost" sample.world0 =
       (Error (ProductNotFound msg), w') /\
     issued sample.world0 w' = [Products_update "ghost" only_title_New] /\
     (products w' : gmap string Product) = sample.catalogue).
Proof.
  assert (Hp1 : sample.catalogue !! "p1" = Some sample.odyssey)
    by (vm_compute; reflexivity).
  assert (Hghost : sample.catalogue !! "ghost" = None)
    by (vm_compute; reflexivity).
  split; [reflexivity|]. split; [exact Hp1|]. split; [exact Hghost|]. split.
  - exact (proj1 (update_product_title_only memory.Orders
                    sample.patch_title_New "p1" sample.world0 eq_refl)
             sample.odyssey Hp1).
  - exact (proj2 (update_product_title_only memory.Orders
                    sample.patch_title_New "ghost" sample.world0 eq_refl)
             Hghost).
Defined.


(** C9, as the claim has it, fails: with [p=abc] the request raises
    [ValueError]; the defaults are not applied and the orders service is
    never asked for page 1 of size 10. *)
Lemma list_orders_malformed_page_not_defaulted :
  service.list_orders memory.Products memory.Orders sample.page_abc
      sample.world0 = (Error ValueError, sample.world0) /\
  ~ (exists r w',
       service.list_orders memory.Products memory.Orders sample.page_abc
           sample.world0 = (r, w') /\
       issued sample.world0 w' = [Orders_list_orders 1 10]).
Proof.
  assert (Hraise :
    service.list_orders memory.Products memory.Orders sample.page_abc
        sample.world0 = (Error ValueError, sample.world0)) by reflexivity.
  split; [exact Hraise|].
  intros (r & w' & Hrun & Hlog).
  rewrite Hraise in Hrun. injection Hrun as _ <-.
  rewrite issued_refl in Hlog. discriminate.
Qed.

Lemma list_orders_pagination_witness :
  (exists w',
     service.list_orders memory.Products memory.Orders sample.page_2_of_5
         sample.world0 =
       (respond (fst (rpc.list_orders memory.Orders 2 5 (orders sample.world0)))
          (fun listed =>
             json_response OK (data (GetOrderSchema_dump_many listed))), w') /\
     issued sample.world0 w' = [Orders_list_orders 2 5]) /\
  (exists w',
     service.list_orders memory.Products memory.Orders sample.get_request
         sample.world0 =
       (respond (fst (rpc.list_orders memory.Orders 1 10 (orders sample.world0)))
          (fun listed =>
             json_response OK (data (GetOrderSchema_dump_many listed))), w') /\
     issued sample.world0 w' = [Orders_list_orders 1 10]) /\
  service.list_orders memory.Products memory.Orders sample.page_abc
      sample.world0 = (Error ValueError, sample.world0).
Proof.
  split; [|split].
  - apply (proj1 (list_orders_pagination memory.Products memory.Orders
                    sample.page_2_of_5 sample.world0) 2 5).
    + right. exists "2". split; [reflexivity|].
      split; [split; [reflexivity|simpl; lia]|reflexivity].
    + right. exists "5". split; [reflexivity|].
      split; [split; [reflexivity|simpl; lia]|reflexivity].
  - apply (proj1 (list_orders_pagination memory.Products memory.Orders
                    sample.get_request sample.world0) 1 10).
    + left. split; reflexivity.
    + left. split; reflexivity.
  - apply (proj2 (list_orders_pagination memory.Products memory.Orders
                    sample.page_abc sample.world0)).
    left. exists "abc". split; [reflexivity|]. split; reflexivity.
Defined.

(* ===================================================================== *)
(** ** Retrieval and validation over arbitrary services *)
(* ===================================================================== *)

Section MoreOrders.
Context (P : ProductsRpc) (O : OrdersRpc) (PRODUCT_IMAGE_ROOT : string).
Implicit Types w : world P O.

(** Whatever the products service answers, the enrichment loop issues [get]
    calls only, one per line up to the line where it stops, leaves the
    orders service alone, and on success returns the lines in their order,
    each with a product and an image link. *)
Lemma enhance_all_calls image_root items :
  forall w,
    let (r, w') := enhance_all P O image_root items w in
    orders w' = orders w /\
    match r with
    | Ok items' =>
        calls w' = (calls w ++ map (Products_get ∘ od_product_id) items)%list /\
        Forall2 (fun item item' =>
                   exists product, enhanced image_root product item item')
                items items'
    | Error e =>
        exists pre bad post,
          items = (pre ++ bad :: post)%list /\
          calls w' =
            (calls w ++ map (Products_get ∘ od_product_id) (pre ++ [bad]))%list
    end.
Proof.
  induction items as [|item rest IH]; intros w.
  - simpl. split; [reflexivity|]. split; [by rewrite app_nil_r|constructor].
  - simpl. unfold bind at 1. unfold enhance, bind, products_rpc_get, on_products.
    destruct (get P (od_product_id item) (products w)) as [[product|e] s].
    + unfold ret at 1. unfold bind.
      match goal with |- context [enhance_all P O image_root rest ?w1] =>
        specialize (IH w1); destruct (enhance_all P O image_root rest w1) as [r w']
      end.
      destruct IH as [Horders Hrest]. simpl in Horders.
      destruct r as [rest'|e].
      * destruct Hrest as [Hcalls Hrel]. unfold ret. simpl in *.
        split; [exact Horders|]. split; [by rewrite Hcalls, <- app_assoc|].
        constructor; [|exact Hrel]. exists product. apply enhanced_intro.
      * destruct Hrest as (pre & bad & post & -> & Hcalls). simpl in *.
        split; [exact Horders|]. exists (item :: pre), bad, post.
        split; [reflexivity|]. by rewrite Hcalls, <- app_assoc.
    + simpl. split; [reflexivity|]. by exists [], item, rest.
Qed.

(** The calls of a retrieval, whatever the two services do. When the orders
    service does not return the order, its exception is raised and no
    product is looked up. When it does, the products of the lines are looked
    up in line order: on success once for every line, and the order comes
    back with the same id and the same lines in the same order, each with a
    product and an image link; on failure up to the line whose lookup
    raised. No other remote call is made. *)
Theorem get_order_calls order_id w :
  let (r, w') := _get_order P O PRODUCT_IMAGE_ROOT order_id w in
  orders w' = snd (rpc.get_order O order_id (orders w)) /\
  match fst (rpc.get_order O order_id (orders w)) with
  | Error e =>
      r = Error e /\ issued w w' = [Orders_get_order order_id] /\
      products w' = products w
  | Ok order =>
      match r with
      | Ok order' =>
          schemas.order_id order' = schemas.order_id order /\
          issued w w' =
            Orders_get_order order_id ::
            map (Products_get ∘ od_product_id) (order_details order) /\
          Forall2 (fun item item' =>
                     exists product,
                       enhanced PRODUCT_IMAGE_ROOT product item item')
                  (order_details order) (order_details order')
      | Error e =>
          exists pre bad post,
            order_details order = (pre ++ bad :: post)%list /\
            issued w w' =
              Orders_get_order order_id ::
              map (Products_get ∘ od_product_id) (pre ++ [bad])
      end
  end.
Proof.
  unfold _get_order. unfold bind at 1. unfold orders_rpc_get_order, on_orders.
  destruct (rpc.get_order O order_id (orders w)) as [[order|e] s]; simpl.
  - unfold bind.
    match goal with |- context [enhance_all P O _ _ ?w1] =>
      pose proof (enhance_all_calls PRODUCT_IMAGE_ROOT (order_details order) w1)
        as Hloop;
      destruct (enhance_all P O PRODUCT_IMAGE_ROOT (order_details order) w1)
        as [r w']
    end.
    destruct Hloop as [Horders Hloop]. simpl in Horders.
    destruct r as [items'|e].
    + destruct Hloop as [Hcalls Hrel]. unfold ret. simpl in *.
      split; [exact Horders|]. split; [reflexivity|]. split; [|exact Hrel].
      apply issued_app. by rewrite Hcalls, <- app_assoc.
    + destruct Hloop as (pre & bad & post & Hsplit & Hcalls). simpl in *.
      split; [exact Horders|]. exists pre, bad, post. split; [exact Hsplit|].
      apply issued_app. by rewrite Hcalls, <- app_assoc.
  - split; [reflexivity|]. split; [reflexivity|].
    split; [by apply issued_app|reflexivity].
Qed.



(** A price given as an ASCII numeric string or as an integer that the
    create schema accepts is sent to the orders service as a string that the
    retrieval schema reads without error and writes as the same string: no
    digit is lost or added between the creation of an order and its
    retrieval. *)
Theorem order_line_price_round_trip o price line stored :
  o !! "price" = Some price ->
  CreateOrderDetailSchema_load (JObject o) = Some line ->
  price_input price (in_price line) ->
  od_price stored = line_price (CreateOrderDetailSchema_dump line) ->
  errors (OrderDetail_dump stored) = false /\
  field (data (OrderDetail_dump stored)) "price" =
    Some (JStr (line_price (CreateOrderDetailSchema_dump line))).
Proof.
  intros _ Hload _ Hsent.
  destruct (price_exact_through_schemas line stored
              (CreateOrderDetailSchema_load_wf (JObject o) line Hload) Hsent)
    as [Hclean Hprice].
  split; [exact Hclean|]. by rewrite Hprice, Hsent.
Qed.

Lemma load_many_None {A} (load : json -> option A) l x :
  x ∈ l -> load x = None -> load_many load l = None.
Proof.
  induction l as [|y l IH]; intros Hin Hx.
  - by apply elem_of_nil in Hin.
  - simpl. apply elem_of_cons in Hin as [<-|Hin].
    + by rewrite Hx.
    + rewrite (IH Hin Hx). by destruct (load y).
Qed.

(** One invalid line rejects the whole order before any remote call: when
    some element of [order_details] that is not [null] is not an object
    with a string product id, a decimal price and an integer quantity (a
    price or a quantity given as a string being ASCII text),
    [create_order] raises [ValidationError], no product is checked and no
    order is created, whatever the other lines are. *)
Theorem create_order_invalid_line request o l x w :
  get_data request = Ok (JObject o) ->
  o !! "order_details" = Some (JList l) ->
  x ∈ l ->
  x <> JNull ->
  ascii_field x "price" = true ->
  ascii_field x "quantity" = true ->
  CreateOrderDetailSchema_load x = None ->
  service.create_order P O request w = (Error ValidationError, w).
Proof.
  intros Hbody Hdetails Hin _ _ _ Hx.
  unfold service.create_order, bind, lift, loads. rewrite Hbody.
  unfold CreateOrderSchema_load. rewrite Hdetails.
  by rewrite (load_many_None _ l x Hin Hx).
Qed.

End MoreOrders.

(* ===================================================================== *)
(** ** Integers written as numerals *)
(* ===================================================================== *)

Section Numerals.








End Numerals.

(* ===================================================================== *)
(** ** Integer prices *)
(* ===================================================================== *)

Section IntegerPrices.









End IntegerPrices.

(* ===================================================================== *)
(** ** Request bodies and query parameters *)
(* ===================================================================== *)

Section Requests.
Context (P : ProductsRpc) (O : OrdersRpc) (C : catalog.ProductsCatalogRpc P).

(** A body that is not JSON is a [BadRequest] for every handler that reads
    one, raised before any remote call: the world is as it was. *)
Theorem invalid_json_is_bad_request request exc :
  get_data request = Error exc ->
  (forall w, service.create_order P O request w =
               (Error (BadRequest ("Invalid json: " ++ exc)), w)) /\
  (forall product_id w,
     update_product P O request product_id w =
       (Error (BadRequest ("Invalid json: " ++ exc)), w)) /\
  (forall w, catalog.create_product P O C request w =
               (Error (BadRequest ("Invalid json: " ++ exc)), w)).
Proof.
  intros Hbody. repeat split; intros;
    unfold service.create_order, update_product, catalog.create_product,
           bind, lift, loads;
    by rewrite Hbody.
Qed.

Lemma missing_None_insert_ne {A} (deserialize : json -> option A) o k v key :
  k <> key ->
  missing_None deserialize (<[k := v]> o) key = missing_None deserialize o key.
Proof. intros Hne. unfold missing_None. by rewrite lookup_insert_ne. Qed.

Lemma missing_None_null {A} (deserialize : json -> option A) o k key :
  missing_None deserialize (<[k := JNull]> o) key =
  missing_None deserialize (delete k o) key.
Proof.
  unfold missing_None. destruct (decide (k = key)) as [->|Hne].
  - by rewrite lookup_insert_eq, lookup_delete_eq.
  - by rewrite lookup_insert_ne, lookup_delete_ne.
Qed.

Lemma loads_same {A} (load : json -> outcome A) request request' body body' :
  get_data request = Ok body -> get_data request' = Ok body' ->
  load body = load body' -> loads load request = loads load request'.
Proof. intros H H' Hload. unfold loads. by rewrite H, H'. Qed.

(** A key that [UpdateProductSchema] does not declare, such as the [id] of
    the example request, has no effect on an update: with or without it the
    request forwards the same data for the product of the path and answers
    the same. *)
Theorem update_product_ignores_undeclared_keys request request' o k v
    product_id (w : world P O) :
  k ∉ catalog.update_fields ->
  get_data request = Ok (JObject (<[k := v]> o)) ->
  get_data request' = Ok (JObject o) ->
  update_product P O request product_id w =
  update_product P O request' product_id w.
Proof.
  intros Hk Hbody Hbody'. unfold catalog.update_fields in Hk.
  repeat (apply not_elem_of_cons in Hk as [? Hk]).
  unfold update_product.
  rewrite (loads_same UpdateProductSchema_load request request' _ _ Hbody Hbody');
    [reflexivity|].
  unfold UpdateProductSchema_load. by rewrite !missing_None_insert_ne.
Qed.

(** A field given as [null] in an update is a field left out: the request
    forwards the same data and answers the same. *)
Theorem update_product_null_is_absent request request' o k
    product_id (w : world P O) :
  get_data request = Ok (JObject (<[k := JNull]> o)) ->
  get_data request' = Ok (JObject (delete k o)) ->
  update_product P O request product_id w =
  update_product P O request' product_id w.
Proof.
  intros Hbody Hbody'. unfold update_product.
  rewrite (loads_same UpdateProductSchema_load request request' _ _ Hbody Hbody');
    [reflexivity|].
  unfold UpdateProductSchema_load. by rewrite !missing_None_null.
Qed.


Lemma required_missing {A} (deserialize : json -> option A) o key :
  o !! key = None \/ o !! key = Some JNull ->
  required deserialize o key = None.
Proof. unfold required. by intros [->| ->]. Qed.

Lemma required_Str o key s :
  required Str_deserialize o key = Some s -> o !! key = Some (JStr s).
Proof.
  unfold required. destruct (o !! key) as [[]|]; simpl; try discriminate.
  by intros [= ->].
Qed.

Lemma CreateProductSchema_load_dump product :
  catalog.CreateProductSchema_load (CreateProductSchema_dump product) = Ok product.
Proof.
  unfold catalog.CreateProductSchema_load, CreateProductSchema_dump, required.
  repeat (rewrite ?lookup_insert_eq; rewrite ?lookup_insert_ne by done).
  by destruct product.
Qed.

(** The product schema reads back what it writes: loading the document that
    [CreateProductSchema] dumps for a product gives that product, whatever
    its id, title and numbers are. *)
Theorem CreateProductSchema_round_trip product :
  catalog.CreateProductSchema_load (CreateProductSchema_dump product) = Ok product.
Proof.
  destruct product as [i t m n c].
  unfold catalog.CreateProductSchema_load, CreateProductSchema_dump, required.
  cbn [prod_id prod_title prod_maximum_speed prod_in_stock
       prod_passenger_capacity].
  rewrite lookup_insert_eq.
  rewrite lookup_insert_ne, lookup_insert_eq by done.
  rewrite !lookup_insert_ne, lookup_insert_eq by done.
  rewrite !lookup_insert_ne, lookup_insert_eq by done.
  rewrite !lookup_insert_ne, lookup_insert_eq by done.
  reflexivity.
Qed.


Lemma missing_None_invalid {A} (deserialize : json -> option A) o key v :
  o !! key = Some v -> v <> JNull -> deserialize v = None ->
  missing_None deserialize o key = None.
Proof. intros Hkey Hnull Hv. unfold missing_None. rewrite Hkey, Hv. by destruct v. Qed.

(** An update with a value of the wrong type, a title that is not a string
    or an integer field that is a list, an object or ASCII text that [int]
    does not accept, is refused with [ValidationError] before any remote
    call. *)
Theorem update_product_invalid_field request o key v product_id (w : world P O) :
  get_data request = Ok (JObject o) ->
  o !! key = Some v ->
  v <> JNull ->
  (key = "title" /\ Str_deserialize v = None) \/
  (key ∈ ["maximum_speed"; "in_stock"; "passenger_capacity"] /\
   ascii_value v = true /\ Int_deserialize v = None) ->
  update_product P O request product_id w = (Error ValidationError, w).
Proof.
  intros Hbody Hkey Hnull Hbad.
  assert (Hload : UpdateProductSchema_load (JObject o) = Error ValidationError).
  { unfold UpdateProductSchema_load.
    destruct Hbad as [[-> Hv]|(Hin & _ & Hv)].
    - by rewrite (missing_None_invalid Str_deserialize o _ v Hkey Hnull Hv).
    - repeat (apply elem_of_cons in Hin as [->|Hin]);
        [..|by apply elem_of_nil in Hin];
        rewrite (missing_None_invalid Int_deserialize o _ v Hkey Hnull Hv);
        repeat match goal with
               | |- context [missing_None ?d o ?k] => destruct (missing_None d o k)
               end; reflexivity. }
  unfold update_product, bind, lift, loads. by rewrite Hbody, Hload.
Qed.

(** A product body that lacks one of the five fields, or has [null] for it,
    is refused with [ValidationError] before any remote call. *)
Theorem create_product_missing_field request o key
    (w : catalog.catalog_world P O) :
  get_data request = Ok (JObject o) ->
  key ∈ catalog.product_fields ->
  o !! key = None \/ o !! key = Some JNull ->
  catalog.create_product P O C request w = (Error ValidationError, w).
Proof.
  intros Hbody Hkey Hmissing.
  assert (Hload : catalog.CreateProductSchema_load (JObject o)
                  = Error ValidationError).
  { unfold catalog.CreateProductSchema_load, catalog.product_fields in *.
    repeat (apply elem_of_cons in Hkey as [->|Hkey]);
      [..|by apply elem_of_nil in Hkey];
      first [ rewrite (required_missing Str_deserialize o _ Hmissing)
            | rewrite (required_missing Int_deserialize o _ Hmissing) ];
      repeat match goal with
             | |- context [required ?d o ?k] => destruct (required d o k)
             end; reflexivity. }
  unfold catalog.create_product, loads. by rewrite Hbody, Hload.
Qed.

(** A product creation that succeeds made exactly one [create] call, for a
    product whose id and title are the strings of the body, and answers with
    status CREATED and that id; no other remote call was made. *)
Theorem create_product_created request (w w' : catalog.catalog_world P O) resp :
  catalog.create_product P O C request w = (Ok resp, w') ->
  exists o product,
    get_data request = Ok (JObject o) /\
    o !! "id" = Some (JStr (prod_id product)) /\
    o !! "title" = Some (JStr (prod_title product)) /\
    resp = json_response CREATED (json_id (JStr (prod_id product))) /\
    catalog.catalog_calls w' =
      (catalog.catalog_calls w ++ [catalog.Products_create product])%list /\
    calls (catalog.gateway w') = calls (catalog.gateway w) /\
    orders (catalog.gateway w') = orders (catalog.gateway w) /\
    catalog.create C product (products (catalog.gateway w)) =
      (Ok tt, products (catalog.gateway w')).
Proof.
  unfold catalog.create_product, loads. intros Hrun.
  destruct (get_data request) as [body|exc] eqn:Hbody; [|discriminate].
  destruct (catalog.CreateProductSchema_load body) as [product|e] eqn:Hload;
    [|discriminate].
  unfold catalog.on_catalog in Hrun.
  destruct (catalog.create C product (products (catalog.gateway w)))
    as [[[]|e] s] eqn:Hcreate; [|discriminate].
  injection Hrun as <- <-.
  unfold catalog.CreateProductSchema_load in Hload.
  destruct body as [| | | | |o]; try discriminate.
  destruct (required Str_deserialize o "id") as [i|] eqn:Hid; [|discriminate].
  destruct (required Str_deserialize o "title") as [t|] eqn:Htitle;
    [|discriminate].
  destruct (required Int_deserialize o "maximum_speed") as [m|]; [|discriminate].
  destruct (required Int_deserialize o "in_stock") as [n|]; [|discriminate].
  destruct (required Int_deserialize o "passenger_capacity") as [c|];
    [|discriminate].
  injection Hload as <-.
  exists o, {| prod_id := i; prod_title := t; prod_maximum_speed := m;
               prod_in_stock := n; prod_passenger_capacity := c |}.
  simpl. split; [reflexivity|].
  split; [by apply required_Str|]. split; [by apply required_Str|].
  repeat split. exact Hcreate.
Qed.

(** What [get_product] answers can be posted as it is: the body of a
    successful [get_product] is the document of the product the service
    returned, the single remote call, and [CreateProductSchema] loads that
    product from it. *)
Theorem get_product_body_loads request request' product_id
    (w w' : world P O) resp :
  catalog.get_product P O request product_id w = (Ok resp, w') ->
  get_data request' = Ok (response resp) ->
  exists product,
    get P product_id (products w) = (Ok product, products w') /\
    resp = json_response OK (CreateProductSchema_dump product) /\
    issued w w' = [Products_get product_id] /\
    loads catalog.CreateProductSchema_load request' = Ok product.
Proof.
  unfold catalog.get_product, bind, products_rpc_get, on_products.
  intros Hrun Hbody.
  destruct (get P product_id (products w)) as [[product|e] s]; [|discriminate].
  unfold ret in Hrun. injection Hrun as <- <-.
  exists product. split; [reflexivity|]. split; [reflexivity|].
  split; [by apply issued_app|].
  unfold loads. rewrite Hbody. apply CreateProductSchema_load_dump.
Qed.

(** A product deletion makes exactly one [delete] call, for the id of the
    path, and never reads the body of the request; it answers with that id
    when the call returns and raises the exception of the call otherwise. *)
Lemma delete_product_calls request product_id (w : catalog.catalog_world P O) :
  let (r, w') := catalog.delete_product P O C request product_id w in
  r = respond (fst (catalog.delete_ C product_id (products (catalog.gateway w))))
        (fun _ => json_response OK (catalog.json_deleted_id (JStr product_id))) /\
  catalog.catalog_calls w' =
    (catalog.catalog_calls w ++ [catalog.Products_delete product_id])%list /\
  calls (catalog.gateway w') = calls (catalog.gateway w) /\
  orders (catalog.gateway w') = orders (catalog.gateway w) /\
  products (catalog.gateway w') =
    snd (catalog.delete_ C product_id (products (catalog.gateway w))).
Proof.
  unfold catalog.delete_product, catalog.on_catalog.
  by destruct (catalog.delete_ C product_id (products (catalog.gateway w)))
    as [[[]|e] s].
Qed.

End Requests.

(* ===================================================================== *)
(** ** These theorems at work on the sample data *)
(* ===================================================================== *)


Lemma order_line_price_round_trip_witness :
  let o : gmap string json :=
    <["product_id" := JStr "p1"]>
    (<["price" := JStr "9.99"]> (<["quantity" := JInt 2]> ∅)) in
  let line := sample.line_of "p1" in
  let stored := sample.stored_line 1 "p1" in
  o !! "price" = Some (JStr "9.99") /\
  CreateOrderDetailSchema_load (JObject o) = Some line /\
  price_input (JStr "9.99") (in_price line) /\
  od_price stored = line_price (CreateOrderDetailSchema_dump line) /\
  errors (OrderDetail_dump stored) = false /\
  field (data (OrderDetail_dump stored)) "price" = Some (JStr "9.99").
Proof.
  intros o line stored.
  assert (Hprice : o !! "price" = Some (JStr "9.99"))
    by (vm_compute; reflexivity).
  assert (Hload : CreateOrderDetailSchema_load (JObject o) = Some line)
    by (vm_compute; reflexivity).
  assert (Hinput : price_input (JStr "9.99") (in_price line)).
  { split; [split; [reflexivity|simpl; lia]|vm_compute; discriminate]. }
  split; [exact Hprice|]. split; [exact Hload|]. split; [exact Hinput|].
  split; [reflexivity|].
  exact (order_line_price_round_trip o (JStr "9.99") line stored
           Hprice Hload Hinput eq_refl).
Defined.

Lemma create_order_invalid_line_witness :
  let bad := JObject (<["product_id" := JStr "p1"]>
                     (<["price" := JStr "cheap"]>
                     (<["quantity" := JInt 1]> ∅))) in
  let o : gmap string json := <["order_details" := JList [line_p1; bad]]> ∅ in
  get_data catalog.post_bad_line = Ok (JObject o) /\
  o !! "order_details" = Some (JList [line_p1; bad]) /\
  bad ∈ [line_p1; bad] /\
  bad <> JNull /\
  ascii_field bad "price" = true /\
  ascii_field bad "quantity" = true /\
  CreateOrderDetailSchema_load bad = None /\
  service.create_order memory.Products memory.Orders catalog.post_bad_line
      sample.world0 = (Error ValidationError, sample.world0).
Proof.
  intros bad o.
  assert (Hdetails : o !! "order_details" = Some (JList [line_p1; bad]))
    by (vm_compute; reflexivity).
  assert (Hin : bad ∈ [line_p1; bad])
    by apply list_elem_of_further, list_elem_of_here.
  assert (Hnull : bad <> JNull) by discriminate.
  assert (Hprice : ascii_field bad "price" = true) by (vm_compute; reflexivity).
  assert (Hquantity : ascii_field bad "quantity" = true)
    by (vm_compute; reflexivity).
  assert (Hbad : CreateOrderDetailSchema_load bad = None)
    by (vm_compute; reflexivity).
  split; [reflexivity|]. split; [exact Hdetails|]. split; [exact Hin|].
  split; [exact Hnull|]. split; [exact Hprice|]. split; [exact Hquantity|].
  split; [exact Hbad|].
  exact (create_order_invalid_line memory.Products memory.Orders
           catalog.post_bad_line o [line_p1; bad] bad sample.world0
           eq_refl Hdetails Hin Hnull Hprice Hquantity Hbad).
Defined.

Lemma invalid_json_is_bad_request_witness :
  let exc := "Expecting value: line 1 column 1 (char 0)" in
  get_data catalog.bad_json = Error exc /\
  service.create_order memory.Products memory.Orders catalog.bad_json
      sample.world0 =
    (Error (BadRequest ("Invalid json: " ++ exc)), sample.world0) /\
  update_product memory.Products memory.Orders catalog.bad_json "p1"
      sample.world0 =
    (Error (BadRequest ("Invalid json: " ++ exc)), sample.world0) /\
  catalog.create_product memory.Products memory.Orders catalog.Catalog
      catalog.bad_json catalog.world0 =
    (Error (BadRequest ("Invalid json: " ++ exc)), catalog.world0).
Proof.
  intros exc.
  pose proof (invalid_json_is_bad_request memory.Products memory.Orders
                catalog.Catalog catalog.bad_json exc eq_refl)
    as (Hcreate & Hupdate & Hproduct).
  split; [reflexivity|]. split; [apply Hcreate|].
  split; [apply Hupdate|apply Hproduct].
Defined.

Lemma update_product_ignores_undeclared_keys_witness :
  let o : gmap string json := <["title" := JStr "New"]> ∅ in
  ("id" ∉ catalog.update_fields) /\
  get_data catalog.patch_with_id = Ok (JObject (<["id" := JStr "other"]> o)) /\
  get_data sample.patch_title_New = Ok (JObject o) /\
  update_product memory.Products memory.Orders catalog.patch_with_id "p1"
      sample.world0 =
  update_product memory.Products memory.Orders sample.patch_title_New "p1"
      sample.world0.
Proof.
  intros o.
  assert (Hk : "id" ∉ catalog.update_fields).
  { unfold catalog.update_fields. intros Hin. apply list_elem_of_In in Hin.
    simpl in Hin. intuition discriminate. }
  split; [exact Hk|]. split; [reflexivity|]. split; [reflexivity|].
  exact (update_product_ignores_undeclared_keys memory.Products memory.Orders
           catalog.patch_with_id sample.patch_title_New o "id" (JStr "other")
           "p1" sample.world0 Hk eq_refl eq_refl).
Defined.

Lemma update_product_null_is_absent_witness :
  let o : gmap string json := <["title" := JStr "New"]> ∅ in
  get_data catalog.patch_null_stock = Ok (JObject (<["in_stock" := JNull]> o)) /\
  get_data sample.patch_title_New = Ok (JObject (delete "in_stock" o)) /\
  update_product memory.Products memory.Orders catalog.patch_null_stock "p1"
      sample.world0 =
  update_product memory.Products memory.Orders sample.patch_title_New "p1"
      sample.world0.
Proof.
  intros o.
  assert (Habsent : get_data sample.patch_title_New
                    = Ok (JObject (delete "in_stock" o)))
    by (vm_compute; reflexivity).
  split; [reflexivity|]. split; [exact Habsent|].
  exact (update_product_null_is_absent memory.Products memory.Orders
           catalog.patch_null_stock sample.patch_title_New o "in_stock"
           "p1" sample.world0 eq_refl Habsent).
Defined.

Lemma update_product_invalid_field_witness :
  let o : gmap string json := <["title" := JInt 7]> ∅ in
  let o' : gmap string json := <["in_stock" := JStr "many"]> ∅ in
  let patch_stock_many := {| get_data := Ok (JObject o'); args := [] |} in
  (get_data catalog.patch_title_number = Ok (JObject o) /\
   o !! "title" = Some (JInt 7) /\
   JInt 7 <> JNull /\
   Str_deserialize (JInt 7) = None /\
   update_product memory.Products memory.Orders catalog.patch_title_number "p1"
       sample.world0 = (Error ValidationError, sample.world0)) /\
  (o' !! "in_stock" = Some (JStr "many") /\
   JStr "many" <> JNull /\
   "in_stock" ∈ ["maximum_speed"; "in_stock"; "passenger_capacity"] /\
   ascii_value (JStr "many") = true /\
   Int_deserialize (JStr "many") = None /\
   update_product memory.Products memory.Orders patch_stock_many "p1"
       sample.world0 = (Error ValidationError, sample.world0)).
Proof.
  intros o o' patch_stock_many.
  assert (Hkey : o !! "title" = Some (JInt 7)) by (vm_compute; reflexivity).
  assert (Hnull : JInt 7 <> JNull) by discriminate.
  assert (Hkey' : o' !! "in_stock" = Some (JStr "many"))
    by (vm_compute; reflexivity).
  assert (Hnull' : JStr "many" <> JNull) by discriminate.
  assert (Hin : "in_stock" ∈ ["maximum_speed"; "in_stock"; "passenger_capacity"])
    by apply list_elem_of_further, list_elem_of_here.
  split.
  - split; [reflexivity|]. split; [exact Hkey|]. split; [exact Hnull|].
    split; [reflexivity|].
    exact (update_product_invalid_field memory.Products memory.Orders
             catalog.patch_title_number o "title" (JInt 7) "p1" sample.world0
             eq_refl Hkey Hnull (or_introl (conj eq_refl eq_refl))).
  - split; [exact Hkey'|]. split; [exact Hnull'|]. split; [exact Hin|].
    split; [reflexivity|]. split; [reflexivity|].
    exact (update_product_invalid_field memory.Products memory.Orders
             patch_stock_many o' "in_stock" (JStr "many") "p1" sample.world0
             eq_refl Hkey' Hnull'
             (or_intror (conj Hin (conj eq_refl eq_refl)))).
Defined.


Lemma create_product_missing_field_witness :
  let o : gmap string json :=
    <["id" := JStr "p2"]>
    (<["maximum_speed" := JInt 5]>
    (<["in_stock" := JInt 10]>
    (<["passenger_capacity" := JInt 101]> ∅))) in
  get_data catalog.post_without_title = Ok (JObject o) /\
  "title" ∈ catalog.product_fields /\
  (o !! "title" = None \/ o !! "title" = Some JNull) /\
  catalog.create_product memory.Products memory.Orders catalog.Catalog
      catalog.post_without_title catalog.world0 =
    (Error ValidationError, catalog.world0).
Proof.
  intros o.
  assert (Hkey : "title" ∈ catalog.product_fields)
    by apply list_elem_of_further, list_elem_of_here.
  assert (Hmissing : o !! "title" = None \/ o !! "title" = Some JNull)
    by (left; vm_compute; reflexivity).
  split; [reflexivity|]. split; [exact Hkey|]. split; [exact Hmissing|].
  exact (create_product_missing_field memory.Products memory.Orders
           catalog.Catalog catalog.post_without_title o "title" catalog.world0
           eq_refl Hkey Hmissing).
Defined.

Lemma create_product_created_witness :
  exists resp w',
    catalog.create_product memory.Products memory.Orders catalog.Catalog
        catalog.post_enigma catalog.world0 = (Ok resp, w') /\
    exists o product,
      get_data catalog.post_enigma = Ok (JObject o) /\
      o !! "id" = Some (JStr (prod_id product)) /\
      o !! "title" = Some (JStr (prod_title product)) /\
      resp = json_response CREATED (json_id (JStr (prod_id product))) /\
      catalog.catalog_calls w' =
        (catalog.catalog_calls catalog.world0 ++
         [catalog.Products_create product])%list /\
      calls (catalog.gateway w') = calls (catalog.gateway catalog.world0) /\
      orders (catalog.gateway w') = orders (catalog.gateway catalog.world0) /\
      catalog.create catalog.Catalog product
          (products (catalog.gateway catalog.world0)) =
        (Ok tt, products (catalog.gateway w')).
Proof.
  eexists _, _. split; [reflexivity|].
  apply (create_product_created memory.Products memory.Orders catalog.Catalog
           catalog.post_enigma catalog.world0).
  reflexivity.
Defined.

Lemma get_product_body_loads_witness :
  exists resp w',
    catalog.get_product memory.Products memory.Orders sample.get_request "p1"
        sample.world0 = (Ok resp, w') /\
    get_data catalog.post_odyssey = Ok (response resp) /\
    exists product,
      get memory.Products "p1" (products sample.world0) =
        (Ok product, products w') /\
      resp = json_response OK (CreateProductSchema_dump product) /\
      issued sample.world0 w' = [Products_get "p1"] /\
      loads catalog.CreateProductSchema_load catalog.post_odyssey = Ok product.
Proof.
  eexists _, _. split; [reflexivity|]. split; [reflexivity|].
  apply (get_product_body_loads memory.Products memory.Orders
           sample.get_request catalog.post_odyssey "p1" sample.world0);
    reflexivity.
Defined.
